(** * Shapefile to H3 converter: a shallow embedding

    The development follows [shapefile_to_h3_converter.py] and the first
    statements of [main.py].  Python floats are Rocq's binary64 primitive
    floats.  Pydantic models live in a heap of objects, because the converter
    copies a model shallowly and then assigns to attributes of the objects the
    copy shares with the original.  Calls into geopandas, GEOS, pydantic's
    JSON codec and h3 are fields of the class [Libraries]: the theorems hold
    for every implementation of them.  Two contracts of the libraries are
    written out, since the code's behaviour turns on them: which keywords of
    [Field] are constraints, and that shapely builds no line string of a
    single point.

    An accumulator that a method fills by [append] and then returns becomes a
    heap object when it is complete.  Console output and the CSV writers
    ([write_coordinates_to_file], [write_h3_hexagons_to_file], [convert]) are
    left out. *)

From Stdlib Require Import ZArith List String Floats.
From stdpp Require Import base option list gmap strings pretty.

Set Warnings "-inexact-float".
Local Open Scope string_scope.
Local Open Scope list_scope.
Local Open Scope Z_scope.

(** ** Exceptions and results *)

Inductive exn :=
| ValidationError   (* pydantic: a field constraint is violated *)
| GEOSException     (* shapely: GEOS refused the geometry or the argument *)
| ValueError
| AttributeError    (* an object of another class than the code expects *)
| IndexError
| OSError
| H3Error.

Inductive result (A : Type) :=
| Ok (a : A)
| Raise (e : exn).
Arguments Ok {A} a.
Arguments Raise {A} e.

Global Instance result_ret : MRet result := fun _ a => Ok a.
Global Instance result_bind : MBind result := fun _ _ k r =>
  match r with
  | Ok a => k a
  | Raise e => Raise e
  end.

(** [xs[i]] on a Python list: an index past the end raises. *)
Definition index {A} (xs : list A) (i : nat) : result A :=
  match xs !! i with
  | Some x => Ok x
  | None => Raise IndexError
  end.

Fixpoint mapR {A B} (f : A -> result B) (xs : list A) : result (list B) :=
  match xs with
  | [] => Ok []
  | x :: rest => y ← f x; ys ← mapR f rest; Ok (y :: ys)
  end.

(** ** Pydantic fields

    [Field(..., k1=v1, k2=v2)] is transcribed with its keyword arguments as
    written in the source.  Pydantic's [Field] files the keywords it knows as
    constraints and keeps every other keyword as schema annotation
    ([json_schema_extra]); validation consults the constraints only.  Of the
    constraint keywords ([gt], [ge], [lt], [le], [multiple_of], [min_length],
    [max_length], [pattern], ...) the source uses the four below; [min] and
    [max] are none of them. *)

Module pydantic.

Record FieldInfo := {
  min_length : option Z;
  max_length : option Z;
  ge : option Z;
  le : option Z;
  json_schema_extra : list (string * Z)
}.

Fixpoint kwarg (name : string) (kwargs : list (string * Z)) : option Z :=
  match kwargs with
  | [] => None
  | (k, v) :: rest => if String.eqb k name then Some v else kwarg name rest
  end.

Definition constraint_keywords : list string :=
  ["min_length"; "max_length"; "ge"; "le"].

Definition is_constraint (k : string) : bool :=
  existsb (String.eqb k) constraint_keywords.

Definition Field (kwargs : list (string * Z)) : FieldInfo :=
  {| min_length := kwarg "min_length" kwargs;
     max_length := kwarg "max_length" kwargs;
     ge := kwarg "ge" kwargs;
     le := kwarg "le" kwargs;
     json_schema_extra :=
       filter (fun kv => negb (is_constraint (fst kv))) kwargs |}.

Definition at_least (bound : option Z) (n : Z) : bool :=
  match bound with
  | Some b => b <=? n
  | None => true
  end.

Definition at_most (bound : option Z) (n : Z) : bool :=
  match bound with
  | Some b => n <=? b
  | None => true
  end.

Definition check_length (fi : FieldInfo) (n : nat) : bool :=
  at_least (min_length fi) (Z.of_nat n) && at_most (max_length fi) (Z.of_nat n).

(** A [str] field. *)
Definition validate_str (fi : FieldInfo) (s : string) : result string :=
  if check_length fi (String.length s) then Ok s else Raise ValidationError.

(** An [int] field. *)
Definition validate_int (fi : FieldInfo) (n : Z) : result Z :=
  if at_least (ge fi) n && at_most (le fi) n then Ok n else Raise ValidationError.

(** A [List[...]] field: only the length constraints apply to the list. *)
Definition validate_list {A} (fi : FieldInfo) (xs : list A) : result (list A) :=
  if check_length fi (length xs) then Ok xs else Raise ValidationError.

End pydantic.

(** ** The models of the source *)

Module InputParams.

Record t := {
  shapefile_filepath : string;
  output_filepath_geojson : string;
  output_filepath_geojson_segmentized : string;
  h3_resolution : Z;
  output_filepath_h3_hexagons : string
}.

Definition shapefile_filepath_field := pydantic.Field [("min_length", 1)].
Definition output_filepath_geojson_field := pydantic.Field [("min_length", 1)].
Definition output_filepath_geojson_segmentized_field :=
  pydantic.Field [("min_length", 1)].
Definition h3_resolution_field := pydantic.Field [("ge", 0); ("le", 15)].
Definition output_filepath_h3_hexagons_field := pydantic.Field [("min_length", 1)].

(** [InputParams(shapefile_filepath=..., ...)]: every field is validated
    when the object is built. *)
Definition new (shp geojson segmentized : string) (resolution : Z)
    (hexagons : string) : result t :=
  a ← pydantic.validate_str shapefile_filepath_field shp;
  b ← pydantic.validate_str output_filepath_geojson_field geojson;
  c ← pydantic.validate_str output_filepath_geojson_segmentized_field segmentized;
  r ← pydantic.validate_int h3_resolution_field resolution;
  d ← pydantic.validate_str output_filepath_h3_hexagons_field hexagons;
  Ok {| shapefile_filepath := a;
        output_filepath_geojson := b;
        output_filepath_geojson_segmentized := c;
        h3_resolution := r;
        output_filepath_h3_hexagons := d |}.

End InputParams.

Inductive PropertyClass := principal_road | dual_carriageway.

Module FeatureGeometryType.
Inductive t := LineString.
Definition eqb (a b : t) : bool :=
  match a, b with
  | LineString, LineString => true
  end.
End FeatureGeometryType.

Record Properties := {
  id_t1 : float;
  road_name : string;
  class_ : option PropertyClass;
  nrn : option string
}.

Module Coordinate.

Record t := { root : list float }.

Definition root_field : pydantic.FieldInfo :=
  pydantic.Field [("min_length", 2); ("max_length", 2); ("min", 0); ("max", 180)].

(** [Coordinate(root=xs)] *)
Definition new (xs : list float) : result t :=
  r ← pydantic.validate_list root_field xs;
  Ok {| root := r |}.

(** The bound the field declaration names: every component in [0, 180]. *)
Definition within_declared_bound (xs : list float) : bool :=
  forallb (fun x => PrimFloat.leb 0 x && PrimFloat.leb x 180) xs.

End Coordinate.

(** The documents the converter reads and writes, as trees.  A validated
    [GeoJsonModel] is built from such a tree and dumped back into one. *)

Record Geometry := {
  geometry_type : FeatureGeometryType.t;
  coordinates : list Coordinate.t
}.

Record Feature := {
  id : string;
  feature_type : string;
  properties : Properties;
  geometry : Geometry
}.

Record CrsProperties := { name : string }.

Record Crs := {
  crs_type : string;
  crs_properties : CrsProperties
}.

Record GeoJsonModel := {
  type : string;
  features : list Feature;
  crs : Crs
}.

(** ** shapely *)

Module shapely.

Record LineString := { coords : list (list float) }.

Definition dimension_ok (points : list (list float)) : bool :=
  forallb (fun p => Nat.eqb (length p) 2) points
  || forallb (fun p => Nat.eqb (length p) 3) points.

(** [LineString(points)]: a line string is empty or has two points or
    more; GEOS refuses a single point.  Every point has the same two or
    three ordinates. *)
Definition new (points : list (list float)) : result LineString :=
  if negb (dimension_ok points) then Raise ValueError
  else if Nat.eqb (length points) 1 then Raise GEOSException
  else Ok {| coords := points |}.

End shapely.

(** ** The object heap

    Model objects and the lists they hold are heap objects named by their
    address, so two references to one object see each other's assignments.
    [Properties] and [Crs] are never assigned to and stay values. *)

Abbreviation loc := nat.

Inductive obj :=
| OCoordinate (root : list float)
| OList (items : list loc)
| OGeometry (type : FeatureGeometryType.t) (coordinates : loc)
| OFeature (id type : string) (properties : Properties) (geometry : loc)
| OGeoJsonModel (type : string) (features : loc) (crs : Crs).

Inductive io_event :=
| IoRead (path : string)
| IoWrite (path : string).

(** ** Libraries outside the repository *)

(** [list(set(xs))] enumerates every member of the set once, in an order that
    the language leaves open. *)
Record SetIteration := {
  enumerate : gset string -> list string;
  enumerate_perm : forall s, enumerate s ≡ₚ elements s
}.

Class Libraries := {
  (** JSON text *)
  Json : Type;
  (** [geopandas.read_file(path)], [GeoDataFrame.to_json()] *)
  GeoDataFrame : Type;
  read_file : string -> result GeoDataFrame;
  to_json : GeoDataFrame -> Json;
  (** [GeoJsonModel.model_validate_json], [model_dump_json] *)
  model_validate_json : Json -> result GeoJsonModel;
  model_dump_json : GeoJsonModel -> Json;
  (** GEOS densification of one geometry, behind [GeoSeries.segmentize] *)
  segmentize : shapely.LineString -> float -> result shapely.LineString;
  (** [h3.latlng_to_cell(lat, lng, res)], [h3.grid_ring(cell, k)] *)
  latlng_to_cell : float -> float -> Z -> result string;
  grid_ring : string -> Z -> result (list string);
  (** whether [open(path, "w")] succeeds *)
  writable : string -> bool;
  (** the interpreter's iteration order over a set of strings *)
  set_iteration : SetIteration
}.

(** ** The world and the monad of the converter's methods

    An exception leaves the effects made before it in place. *)

Record world `{Libraries} := {
  heap : list obj;
  (** every file holds the texts written to it since it was last opened for writing *)
  files : gmap string (list Json);
  trace : list io_event
}.

Definition M `{Libraries} (A : Type) : Type := world -> result A * world.

Section Monad.
Context `{Libraries}.

Definition ret {A} (a : A) : M A := fun w => (Ok a, w).

Definition bind {A B} (m : M A) (k : A -> M B) : M B := fun w =>
  match m w with
  | (Ok a, w') => k a w'
  | (Raise e, w') => (Raise e, w')
  end.

Definition raise {A} (e : exn) : M A := fun w => (Raise e, w).

Definition lift {A} (r : result A) : M A := fun w => (r, w).

Definition set_heap (h : list obj) (w : world) : world :=
  {| heap := h; files := files w; trace := trace w |}.

(** A new object gets the next free address. *)
Definition alloc (o : obj) : M loc := fun w =>
  (Ok (length (heap w)), set_heap (heap w ++ [o]) w).

Definition load (l : loc) : M obj := fun w =>
  match heap w !! l with
  | Some o => (Ok o, w)
  | None => (Raise AttributeError, w)
  end.

Definition store (l : loc) (o : obj) : M unit := fun w =>
  (Ok tt, set_heap (<[l := o]> (heap w)) w).

Definition log (e : io_event) : M unit := fun w =>
  (Ok tt, {| heap := heap w; files := files w; trace := trace w ++ [e] |}).

(** [open(path, "w")]: the attempt is an I/O event; a file that opens is
    truncated. *)
Definition open_w (path : string) : M unit := fun w =>
  let t := trace w ++ [IoWrite path] in
  if writable path
  then (Ok tt, {| heap := heap w; files := <[path := []]> (files w); trace := t |})
  else (Raise OSError, {| heap := heap w; files := files w; trace := t |}).

(** [f.write(text)] on the file opened at [path] *)
Definition f_write (path : string) (text : Json) : M unit := fun w =>
  (Ok tt, {| heap := heap w;
             files := <[path := default [] (files w !! path) ++ [text]]> (files w);
             trace := trace w |}).

End Monad.

Global Instance M_ret `{Libraries} : MRet M := @ret _.
Global Instance M_bind `{Libraries} : MBind M := fun _ _ k m => bind m k.

Section Loops.
Context `{Libraries}.

(** [for x in xs: body(x)] *)
Fixpoint for_each {A} (xs : list A) (body : A -> M unit) : M unit :=
  match xs with
  | [] => ret tt
  | x :: rest => body x;; for_each rest body
  end.

(** A loop that appends one result per element to a fresh local list. *)
Fixpoint collect {A B} (xs : list A) (body : A -> M B) : M (list B) :=
  match xs with
  | [] => ret []
  | x :: rest => y ← body x; ys ← collect rest body; ret (y :: ys)
  end.

End Loops.

(** ** Models in the heap *)

Section Models.
Context `{Libraries}.

(** Validation builds a fresh object for every node of the document. *)
Definition new_coordinate (c : Coordinate.t) : M loc :=
  alloc (OCoordinate (Coordinate.root c)).

Definition new_geometry (g : Geometry) : M loc :=
  cs ← collect (coordinates g) new_coordinate;
  l ← alloc (OList cs);
  alloc (OGeometry (geometry_type g) l).

Definition new_feature (f : Feature) : M loc :=
  g ← new_geometry (geometry f);
  alloc (OFeature (id f) (feature_type f) (properties f) g).

Definition new_model (m : GeoJsonModel) : M loc :=
  fs ← collect (features m) new_feature;
  l ← alloc (OList fs);
  alloc (OGeoJsonModel (type m) l (crs m)).

(** Attribute reads; an object of another class raises. *)
Definition load_list (l : loc) : M (list loc) :=
  o ← load l;
  match o with
  | OList items => ret items
  | _ => raise AttributeError
  end.

Definition load_root (l : loc) : M (list float) :=
  o ← load l;
  match o with
  | OCoordinate r => ret r
  | _ => raise AttributeError
  end.

Definition load_geometry (l : loc) : M (FeatureGeometryType.t * loc) :=
  o ← load l;
  match o with
  | OGeometry t c => ret (t, c)
  | _ => raise AttributeError
  end.

Definition load_feature_geometry (l : loc) : M loc :=
  o ← load l;
  match o with
  | OFeature _ _ _ g => ret g
  | _ => raise AttributeError
  end.

Definition load_features (l : loc) : M loc :=
  o ← load l;
  match o with
  | OGeoJsonModel _ f _ => ret f
  | _ => raise AttributeError
  end.

(** [geometry.coordinates = new] *)
Definition set_coordinates (g : loc) (new : loc) : M unit :=
  o ← load g;
  match o with
  | OGeometry t _ => store g (OGeometry t new)
  | _ => raise AttributeError
  end.

(** [data.model_copy()]: the default copy is shallow, a new model object
    whose fields refer to the objects of the original. *)
Definition model_copy (data : loc) : M loc :=
  o ← load data;
  match o with
  | OGeoJsonModel t f c => alloc (OGeoJsonModel t f c)
  | _ => raise AttributeError
  end.

End Models.

(** What a model denotes in a heap: the document it would dump. *)

Definition read_list (h : list obj) (l : loc) : option (list loc) :=
  match h !! l with
  | Some (OList items) => Some items
  | _ => None
  end.

Definition read_coordinate (h : list obj) (l : loc) : option Coordinate.t :=
  match h !! l with
  | Some (OCoordinate r) => Some {| Coordinate.root := r |}
  | _ => None
  end.

Definition read_coordinates (h : list obj) (l : loc) : option (list Coordinate.t) :=
  items ← read_list h l;
  mapM (read_coordinate h) items.

Definition read_geometry (h : list obj) (l : loc) : option Geometry :=
  match h !! l with
  | Some (OGeometry t c) =>
      cs ← read_coordinates h c;
      Some {| geometry_type := t; coordinates := cs |}
  | _ => None
  end.

Definition read_feature (h : list obj) (l : loc) : option Feature :=
  match h !! l with
  | Some (OFeature i t p g) =>
      g' ← read_geometry h g;
      Some {| id := i; feature_type := t; properties := p; geometry := g' |}
  | _ => None
  end.

Definition read_model (h : list obj) (l : loc) : option GeoJsonModel :=
  match h !! l with
  | Some (OGeoJsonModel t f c) =>
      items ← read_list h f;
      fs ← mapM (read_feature h) items;
      Some {| type := t; features := fs; crs := c |}
  | _ => None
  end.

(** ** The converter *)

Module ShapefileToH3Converter.
Section Methods.
Context `{Libraries}.

Record t := {
  _input : InputParams.t;
  _shapefile_data : GeoDataFrame;
  _geojson_data : loc;
  _coordinates : loc;
  _coordinates_segmentized : loc;
  _h3_hexagons : list string
}.

(** [GeoSeries(geometries).segmentize(max_segment_length)] works geometry
    by geometry. *)
Definition GeoSeries_segmentize (series : list shapely.LineString)
    (max_segment_length : float) : result (list shapely.LineString) :=
  mapR (fun g => segmentize g max_segment_length) series.

Definition default_max_segment_length : float := 0.001%float.

Definition segmentize_linestring (linestring : shapely.LineString)
    (max_segment_length : float) : M loc :=
  segments ← lift (GeoSeries_segmentize [linestring] max_segment_length);
  coordinates ← collect (concat (map shapely.coords segments)) (fun point =>
    c ← lift (Coordinate.new point);
    new_coordinate c);
  alloc (OList coordinates).

(** The body of the loop of [segmentize_geojson_data]. *)
Definition segmentize_feature (feature : loc) : M unit :=
  g ← load_feature_geometry feature;
  '(ty, cl) ← load_geometry g;
  if FeatureGeometryType.eqb ty FeatureGeometryType.LineString then
    items ← load_list cl;
    coords ← collect items load_root;
    linestring ← lift (shapely.new coords);
    new ← segmentize_linestring linestring default_max_segment_length;
    set_coordinates g new
  else ret tt.

Definition segmentize_geojson_data (data : loc) : M loc :=
  data_copy ← model_copy data;
  fl ← load_features data_copy;
  fs ← load_list fl;
  for_each fs segmentize_feature;;
  ret data_copy.

Definition _extract_coordinates (data : loc) : M loc :=
  fl ← load_features data;
  fs ← load_list fl;
  per_feature ← collect fs (fun feature =>
    g ← load_feature_geometry feature;
    '(_, cl) ← load_geometry g;
    load_list cl);
  alloc (OList (concat per_feature)).

(** The loop of [_coordinates_to_h3_hexagons]; [hexagons] is the list
    built so far. *)
Fixpoint append_cells (coordinates : list Coordinate.t) (resolution : Z)
    (hexagons : list string) : result (list string) :=
  match coordinates with
  | [] => Ok hexagons
  | coordinate :: rest =>
      lat ← index (Coordinate.root coordinate) 1;
      lng ← index (Coordinate.root coordinate) 0;
      cell ← latlng_to_cell lat lng resolution;
      neighbors ← grid_ring cell 1;
      append_cells rest resolution (hexagons ++ [cell] ++ neighbors)
  end.

Definition _coordinates_to_h3_hexagons (order : SetIteration)
    (coordinates : list Coordinate.t) (resolution : Z) : result (list string) :=
  hexagons ← append_cells coordinates resolution [];
  Ok (enumerate order (list_to_set hexagons)).

(** The coordinate objects a list refers to, as the mapper reads them. *)
Definition load_coordinates (l : loc) : M (list Coordinate.t) :=
  items ← load_list l;
  collect items (fun c => r ← load_root c; ret {| Coordinate.root := r |}).

(** [model.model_dump_json()] *)
Definition dump (model : loc) : M Json := fun w =>
  match read_model (heap w) model with
  | Some m => (Ok (model_dump_json m), w)
  | None => (Raise AttributeError, w)
  end.

Definition __init__ (input_params : InputParams.t) : M t :=
  log (IoRead (InputParams.shapefile_filepath input_params));;
  shapefile_data ← lift (read_file (InputParams.shapefile_filepath input_params));
  document ← lift (model_validate_json (to_json shapefile_data));
  geojson_data ← new_model document;
  coordinates ← _extract_coordinates geojson_data;
  open_w (InputParams.output_filepath_geojson input_params);;
  text ← dump geojson_data;
  f_write (InputParams.output_filepath_geojson input_params) text;;
  segmentized_geojson_data ← segmentize_geojson_data geojson_data;
  coordinates_segmentized ← _extract_coordinates segmentized_geojson_data;
  open_w (InputParams.output_filepath_geojson_segmentized input_params);;
  text' ← dump segmentized_geojson_data;
  f_write (InputParams.output_filepath_geojson_segmentized input_params) text';;
  cs ← load_coordinates coordinates_segmentized;
  hexagons ← lift (_coordinates_to_h3_hexagons set_iteration cs
                     (InputParams.h3_resolution input_params));
  ret {| _input := input_params;
         _shapefile_data := shapefile_data;
         _geojson_data := geojson_data;
         _coordinates := coordinates;
         _coordinates_segmentized := coordinates_segmentized;
         _h3_hexagons := hexagons |}.

(** The [coordinates] property. *)
Definition coordinates_property (self : t) : loc := _coordinates self.

End Methods.
End ShapefileToH3Converter.

(** [main.py] up to the construction of the converter, for any arguments. *)
Definition main_construct `{Libraries} (shp geojson segmentized : string)
    (resolution : Z) (hexagons : string) : M ShapefileToH3Converter.t :=
  input_params ← lift (InputParams.new shp geojson segmentized resolution hexagons);
  ShapefileToH3Converter.__init__ input_params.

(** ** A reference implementation of the libraries

    One implementation of [Libraries], used to run the converter on concrete
    inputs.  [segmentize] follows the documented contract of
    [GeoSeries.segmentize]: new vertices evenly subdivide every segment into
    the fewest pieces none of which is longer than [max_segment_length], and a
    length that is not positive is refused.  The grid has one cell per
    quadrant of the globe.  JSON text and data frames are identified with the
    document they encode. *)

Module Reference.

Local Open Scope float_scope.

Definition distance (p q : list float) : float :=
  match p, q with
  | [x0; y0], [x1; y1] => sqrt ((x1 - x0) * (x1 - x0) + (y1 - y0) * (y1 - y0))
  | _, _ => 0
  end.

(** The least [n >= 1] with [len / n <= m], searched in [fuel] steps. *)
Fixpoint pieces (fuel : nat) (n len m : float) : float :=
  match fuel with
  | O => n
  | S fuel' => if len / n <=? m then n else pieces fuel' (n + 1) len m
  end.

Definition along (p q : list float) (fraction : float) : list float :=
  match p, q with
  | [x0; y0], [x1; y1] => [x0 + fraction * (x1 - x0); y0 + fraction * (y1 - y0)]
  | _, _ => p
  end.

(** The points [j/n], [(j+1)/n], ... before the end of the segment. *)
Fixpoint interior (fuel : nat) (j n : float) (p q : list float) : list (list float) :=
  match fuel with
  | O => []
  | S fuel' =>
      if j <? n then along p q (j / n) :: interior fuel' (j + 1) n p q else []
  end.

Fixpoint densify (fuel : nat) (points : list (list float)) (m : float)
    : list (list float) :=
  match points with
  | p :: rest =>
      match rest with
      | q :: _ =>
          p :: interior fuel 1 (pieces fuel 1 (distance p q) m) p q
            ++ densify fuel rest m
      | [] => [p]
      end
  | [] => []
  end.

Definition even_subdivision (g : shapely.LineString) (m : float)
    : result shapely.LineString :=
  if 0 <? m then Ok {| shapely.coords := densify 1000 (shapely.coords g) m |}
  else Raise GEOSException.

Definition quadrant (lat lng : float) : string :=
  String.append (if lat <? 0 then "S" else "N") (if lng <? 0 then "W" else "E").

Definition quadrant_cell (lat lng : float) (res : Z) : result string :=
  if ((0 <=? res) && (res <=? 15))%Z then Ok (quadrant lat lng) else Raise H3Error.

Definition quadrant_ring (cell : string) (k : Z) : result (list string) :=
  Ok (filter (fun c => negb (String.eqb c cell)) ["NE"; "NW"; "SE"; "SW"]%string).

Definition in_set_order : SetIteration :=
  {| enumerate := elements; enumerate_perm := fun s => reflexivity (elements s) |}.

Definition reversed : SetIteration :=
  {| enumerate := fun s => reverse (elements s);
     enumerate_perm := fun s => reverse_Permutation (elements s) |}.

(** [shapefiles] says what [read_file] finds at each path. *)
Definition libraries (shapefiles : string -> result GeoJsonModel) : Libraries :=
  {| Json := GeoJsonModel;
     GeoDataFrame := GeoJsonModel;
     read_file := shapefiles;
     to_json := fun d => d;
     model_validate_json := Ok;
     model_dump_json := fun d => d;
     segmentize := even_subdivision;
     latlng_to_cell := quadrant_cell;
     grid_ring := quadrant_ring;
     writable := fun _ => true;
     set_iteration := in_set_order |}.

Definition no_properties : Properties :=
  {| id_t1 := 1; road_name := "Hume Highway"; class_ := Some principal_road; nrn := None |}.

Definition road_feature (points : list (list float)) : Feature :=
  {| id := "0"; feature_type := "Feature"; properties := no_properties;
     geometry := {| geometry_type := FeatureGeometryType.LineString;
                    coordinates := map Coordinate.Build_t points |} |}.

(** A collection of one road through [points]. *)
Definition road (points : list (list float)) : GeoJsonModel :=
  {| type := "FeatureCollection";
     features := [road_feature points];
     crs := {| crs_type := "name";
               crs_properties := {| name := "urn:ogc:def:crs:EPSG::4283" |} |} |}.

(** A road of two points, three thousandths of a degree long. *)
Definition short_road : GeoJsonModel := road [[0; 0]; [0.003; 0]].


Definition only (document : GeoJsonModel) : Libraries :=
  libraries (fun _ => Ok document).

Definition empty_world (L : Libraries) : @world L :=
  {| heap := []; files := ∅; trace := [] |}.

(** The world after validation has built the model of [document]. *)
Definition ingested (document : GeoJsonModel) : result loc * @world (only document) :=
  @new_model (only document) document (empty_world _).

Definition params (geojson segmentized : string) : InputParams.t :=
  {| InputParams.shapefile_filepath := "in.shp";
     InputParams.output_filepath_geojson := geojson;
     InputParams.output_filepath_geojson_segmentized := segmentized;
     InputParams.h3_resolution := 8;
     InputParams.output_filepath_h3_hexagons := "hex.csv" |}.

(** The constructor run on the short road. *)
Definition constructed (geojson segmentized : string) :=
  @ShapefileToH3Converter.__init__ (only short_road) (params geojson segmentized)
    (empty_world _).

(** The short road after segmentization at the default length. *)
Definition short_road_segmentized : GeoJsonModel :=
  road [[0; 0]; [0.001; 0]; [0.002; 0]; [0.003; 0]].

End Reference.

(** A caller that builds the converter and then segmentizes a line with a
    length of its own choice: the only way a [max_segment_length] other than
    the default reaches the code. *)
Definition construct_then_segmentize `{Libraries} (shp geojson segmentized : string)
    (resolution : Z) (hexagons : string) (linestring : shapely.LineString)
    (max_segment_length : float) : M loc :=
  _ ← main_construct shp geojson segmentized resolution hexagons;
  ShapefileToH3Converter.segmentize_linestring linestring max_segment_length.

(** The flat coordinate sequence of a document: feature order, then point
    order. *)
Definition flat_coordinates (document : GeoJsonModel) : list Coordinate.t :=
  concat (map (fun f => coordinates (geometry f)) (features document)).

(** ** Relations between heaps and between worlds

  They state what a method leaves alone. *)

Definition is_geometry (o : obj) : bool :=
  match o with
  | OGeometry _ _ => true
  | _ => false
  end.

(** Every object of [h] is in [h'] unchanged. *)
Definition heap_sub (h h' : list obj) : Prop :=
  forall l o, h !! l = Some o -> h' !! l = Some o.

(** Every object of [h] that is no geometry is in [h'] unchanged. *)
Definition heap_sub_ng (h h' : list obj) : Prop :=
  forall l o, h !! l = Some o -> is_geometry o = false -> h' !! l = Some o.


Section Relations.
Context `{Libraries}.

(** [respects P m]: whatever [m] returns or raises, the worlds before and
    after are related by [P]. *)
Definition respects (P : relation world) {A} (m : M A) : Prop :=
  forall w r w', m w = (r, w') -> P w w'.

(** The heap only grows, files and trace stay. *)
Definition grows (w w' : world) : Prop :=
  (exists ext, heap w' = heap w ++ ext) /\ files w' = files w /\ trace w' = trace w.

(** Every object that is no geometry stays as it is, a geometry stays a
    geometry, files and trace stay. *)
Definition frame (w w' : world) : Prop :=
  (forall l o, heap w !! l = Some o -> is_geometry o = false -> heap w' !! l = Some o) /\
  (forall l o, heap w !! l = Some o -> is_geometry o = true ->
     exists o', heap w' !! l = Some o' /\ is_geometry o' = true) /\
  files w' = files w /\ trace w' = trace w.

End Relations.

(** ** The writers and the entry point *)

(** Python built-ins of the writers. *)
Class Builtins `{Libraries} := {
  (** the text a [str] of these characters puts into a file *)
  text : string -> Json;
  (** [round(x, ndigits)] of a float *)
  round : float -> Z -> float;
  (** [f"{x}"] of a float *)
  format_float : float -> string
}.

Definition newline : string := String (Ascii.ascii_of_nat 10) EmptyString.

Section Writers.
Context `{Libraries} `{!Builtins}.

Definition h3_hexagons_header : string := "index,h3_hexagon" +:+ newline.

(** [f"{i},{h3_hexagon}\n"] *)
Definition hexagon_row (i : nat) (h3_hexagon : string) : string :=
  pretty i +:+ "," +:+ h3_hexagon +:+ newline.

(** The loop of [write_h3_hexagons_to_file]; [i] is its counter. *)
Fixpoint write_hexagon_rows (filepath : string) (hexagons : list string) (i : nat)
    : M unit :=
  match hexagons with
  | [] => ret tt
  | h3_hexagon :: rest =>
      f_write filepath (text (hexagon_row i h3_hexagon));;
      write_hexagon_rows filepath rest (S i)
  end.

Definition write_h3_hexagons_to_file (self : ShapefileToH3Converter.t)
    (filepath : string) : M unit :=
  open_w filepath;;
  f_write filepath (text h3_hexagons_header);;
  write_hexagon_rows filepath (ShapefileToH3Converter._h3_hexagons self) 0.

Definition coordinates_header : string := "index,latitude,longitude" +:+ newline.

(** [f"{i},{round(lat,decimals)},{round(lng,decimals)}\n"] *)
Definition coordinate_row (i : nat) (lat lng : float) (decimals : Z) : string :=
  pretty i +:+ "," +:+ format_float (round lat decimals) +:+ ","
    +:+ format_float (round lng decimals) +:+ newline.

(** The loop of [write_coordinates_to_file]: the row has [root[1]] before
    [root[0]]. *)
Fixpoint write_coordinate_rows (filepath : string) (coordinates : list loc)
    (decimals : Z) (i : nat) : M unit :=
  match coordinates with
  | [] => ret tt
  | coordinate :: rest =>
      root ← load_root coordinate;
      lat ← lift (index root 1);
      lng ← lift (index root 0);
      f_write filepath (text (coordinate_row i lat lng decimals));;
      write_coordinate_rows filepath rest decimals (S i)
  end.

Definition default_decimals : Z := 4.

Definition write_coordinates_to_file (coordinates : loc) (filepath : string)
    (decimals : Z) : M unit :=
  open_w filepath;;
  f_write filepath (text coordinates_header);;
  items ← load_list coordinates;
  write_coordinate_rows filepath items decimals 0.

(** The [coordinates_segmentized] property. *)
Definition coordinates_segmentized_property (self : ShapefileToH3Converter.t) : loc :=
  ShapefileToH3Converter._coordinates_segmentized self.

(** The [h3_hexagons] property. *)
Definition h3_hexagons_property (self : ShapefileToH3Converter.t) : list string :=
  ShapefileToH3Converter._h3_hexagons self.

Definition convert (self : ShapefileToH3Converter.t) : M unit :=
  write_h3_hexagons_to_file self
    (InputParams.output_filepath_h3_hexagons (ShapefileToH3Converter._input self)).

(** [main.py] *)
Definition main : M unit :=
  input_params ← lift (InputParams.new "data_in/National Highways.shp"
                         "data_out/highways.geojson"
                         "data_out/highways_segmentized.geojson" 8
                         "data_out/h3_hexagons.csv");
  converter ← ShapefileToH3Converter.__init__ input_params;
  write_coordinates_to_file (ShapefileToH3Converter.coordinates_property converter)
    "data_out/coordinates.csv" default_decimals;;
  write_coordinates_to_file (coordinates_segmentized_property converter)
    "data_out/coordinates_segmentized.csv" default_decimals;;
  convert converter.

(** *** What the writers leave in a file *)

Definition latitude (c : Coordinate.t) : float :=
  default 0%float (Coordinate.root c !! 1%nat).

Definition longitude (c : Coordinate.t) : float :=
  default 0%float (Coordinate.root c !! 0%nat).

Definition hexagons_csv (hexagons : list string) : list Json :=
  text h3_hexagons_header :: imap (fun i h => text (hexagon_row i h)) hexagons.

Definition coordinates_csv (cs : list Coordinate.t) (decimals : Z) : list Json :=
  text coordinates_header
    :: imap (fun i c => text (coordinate_row i (latitude c) (longitude c) decimals)) cs.

End Writers.

(** ** Segmentization as a function of the document

    What [segmentize_geojson_data] computes, read as a function from the
    document its argument denotes to the document its result denotes. *)

Section Documents.
Context `{Libraries}.

Definition segmentize_points (points : list (list float)) : result (list Coordinate.t) :=
  linestring ← shapely.new points;
  segments ← ShapefileToH3Converter.GeoSeries_segmentize [linestring]
               ShapefileToH3Converter.default_max_segment_length;
  mapR Coordinate.new (concat (map shapely.coords segments)).

Definition segmentize_geometry (g : Geometry) : result Geometry :=
  if FeatureGeometryType.eqb (geometry_type g) FeatureGeometryType.LineString then
    cs ← segmentize_points (map Coordinate.root (coordinates g));
    Ok {| geometry_type := geometry_type g; coordinates := cs |}
  else Ok g.

Definition segmentize_feature_of (f : Feature) : result Feature :=
  g ← segmentize_geometry (geometry f);
  Ok {| id := id f; feature_type := feature_type f; properties := properties f;
        geometry := g |}.

Definition segmentize_document (d : GeoJsonModel) : result GeoJsonModel :=
  fs ← mapR segmentize_feature_of (features d);
  Ok {| type := type d; features := fs; crs := crs d |}.

End Documents.

(** The geometry object of every feature of a model is an object of its
    own. *)
Definition separate_geometries (h : list obj) (data : loc) : Prop :=
  exists t fl c items gs,
    h !! data = Some (OGeoJsonModel t fl c) /\
    h !! fl = Some (OList items) /\
    Forall2 (fun l g => exists i ft p, h !! l = Some (OFeature i ft p g)) items gs /\
    NoDup gs.

(** ** Validation of a geometry

    [Geometry(type=..., coordinates=[...])]: the type is looked up among the
    values of [FeatureGeometryType], every coordinate is validated as a
    [Coordinate], and the list needs one element at least. *)

Definition FeatureGeometryType_of_value (value : string)
    : result FeatureGeometryType.t :=
  if String.eqb value "LineString" then Ok FeatureGeometryType.LineString
  else Raise ValidationError.

Definition Geometry_coordinates_field : pydantic.FieldInfo :=
  pydantic.Field [("min_length", 1)].

Definition Geometry_new (type : string) (coordinates : list (list float))
    : result Geometry :=
  t ← FeatureGeometryType_of_value type;
  cs ← mapR Coordinate.new coordinates;
  cs' ← pydantic.validate_list Geometry_coordinates_field cs;
  Ok {| geometry_type := t; coordinates := cs' |}.

(** [keeps_except gs w w']: from [w] to [w'] only the geometry objects at
    [gs] were assigned to. *)
Definition keeps_except `{Libraries} (gs : list loc) (w w' : world) : Prop :=
  frame w w' /\
  forall l o, l ∉ gs -> heap w !! l = Some o -> heap w' !! l = Some o.

(** ** A second implementation of the libraries, with text files

    A file holds a dumped document or characters; floats are printed
    exactly, as mantissa and binary exponent, and [round] keeps its argument.
    The paths in [readonly] cannot be opened for writing. *)

Module Sample.

Definition file_text : Type := GeoJsonModel + string.

Definition libraries (document : GeoJsonModel) (readonly : list string) : Libraries :=
  {| Json := file_text;
     GeoDataFrame := GeoJsonModel;
     read_file := fun _ => Ok document;
     to_json := inl;
     model_validate_json := fun j =>
       match j with
       | inl d => Ok d
       | inr _ => Raise ValidationError
       end;
     model_dump_json := inl;
     segmentize := Reference.even_subdivision;
     latlng_to_cell := Reference.quadrant_cell;
     grid_ring := Reference.quadrant_ring;
     writable := fun path => negb (existsb (String.eqb path) readonly);
     set_iteration := Reference.in_set_order |}.

Definition exact (x : float) : string :=
  match Prim2SF x with
  | S754_zero s => if s then "-0.0" else "0.0"
  | S754_infinity s => if s then "-inf" else "inf"
  | S754_nan => "nan"
  | S754_finite s m e =>
      (if s then "-" else "") +:+ pretty (Zpos m) +:+ "*2**" +:+ pretty e
  end.

Definition builtins (document : GeoJsonModel) (readonly : list string)
    : @Builtins (libraries document readonly) :=
  @Build_Builtins (libraries document readonly)
    (fun s => inr s) (fun x _ => x) exact.

Definition empty_world (L : Libraries) : @world L :=
  {| heap := []; files := ∅; trace := [] |}.

(** The short road under these libraries; one path is read-only. *)
Definition L : Libraries := libraries Reference.short_road ["/readonly.csv"].

Definition B : @Builtins L := builtins Reference.short_road ["/readonly.csv"].

(** A converter that holds the cells [hexagons]. *)
Definition converter (hexagons : list string) : @ShapefileToH3Converter.t L :=
  @ShapefileToH3Converter.Build_t L
    (Reference.params "raw.json" "seg.json") Reference.short_road 0%nat 0%nat 0%nat
    hexagons.

(** A heap with a list of two coordinates at address 2, and one file. *)
Definition table : @world L :=
  {| heap := [OCoordinate [151.2; -33.9]%float; OCoordinate [149.1; -35.3]%float;
              OList [0; 1]%nat];
     files := {["table.csv" := [inr "old"]]};
     trace := [] |}.

(** The world after validation has built the model of the short road. *)
Definition ingested : result loc * @world L :=
  @new_model L Reference.short_road (empty_world L).

End Sample.

(** * Properties *)

(** ** Validation of fields *)

Example field_of_root :
  Coordinate.root_field =
  {| pydantic.min_length := Some 2; pydantic.max_length := Some 2;
     pydantic.ge := None; pydantic.le := None;
     pydantic.json_schema_extra := [("min", 0); ("max", 180)] |}.
Proof. reflexivity. Qed.

Lemma Coordinate_new_Ok (xs : list float) :
  length xs = 2%nat -> Coordinate.new xs = Ok {| Coordinate.root := xs |}.
Proof.
  intros Hlen. unfold Coordinate.new, pydantic.validate_list, pydantic.check_length.
  rewrite Hlen. reflexivity.
Qed.

Lemma Coordinate_new_Raise (xs : list float) :
  length xs <> 2%nat -> Coordinate.new xs = Raise ValidationError.
Proof.
  intros Hlen. unfold Coordinate.new, pydantic.validate_list, pydantic.check_length.
  cbn [Coordinate.root_field pydantic.Field pydantic.kwarg pydantic.min_length
       pydantic.max_length String.eqb Ascii.eqb Bool.eqb pydantic.at_least
       pydantic.at_most].
  destruct (2 <=? Z.of_nat (length xs)) eqn:Hlo;
    destruct (Z.of_nat (length xs) <=? 2) eqn:Hhi; try reflexivity.
  apply Z.leb_le in Hlo, Hhi. lia.
Qed.

(** C3. A [Coordinate] is accepted on its length alone: the pair
    [151.2, -33.9] (Sydney) has a component below the declared bound
    [0, 180] and is accepted all the same, because [min] and [max] are not
    constraints pydantic checks. *)
Theorem Coordinate_accepts_component_out_of_bound :
  Coordinate.within_declared_bound [151.2; -33.9]%float = false /\
  Coordinate.new [151.2; -33.9]%float
    = Ok {| Coordinate.root := [151.2; -33.9]%float |}.
Proof. split; reflexivity. Qed.

Lemma validate_path_empty (s : string) :
  s = "" -> pydantic.validate_str (pydantic.Field [("min_length", 1)]) s
            = Raise ValidationError.
Proof. intros ->. reflexivity. Qed.

Lemma validate_path_nonempty (s : string) :
  s <> "" -> pydantic.validate_str (pydantic.Field [("min_length", 1)]) s = Ok s.
Proof.
  intros Hs. destruct s as [|a s]; [congruence|].
  unfold pydantic.validate_str, pydantic.check_length.
  cbn [pydantic.Field pydantic.kwarg pydantic.min_length pydantic.max_length
       String.eqb Ascii.eqb Bool.eqb pydantic.at_least pydantic.at_most String.length].
  destruct (1 <=? Z.of_nat (S (String.length s))) eqn:Hlo; [reflexivity|].
  apply Z.leb_gt in Hlo. lia.
Qed.

Lemma validate_resolution (n : Z) :
  pydantic.validate_int InputParams.h3_resolution_field n
  = if (0 <=? n) && (n <=? 15) then Ok n else Raise ValidationError.
Proof. reflexivity. Qed.

Lemma path_empty_dec (s : string) : {s = ""} + {s <> ""}.
Proof. destruct s; [left; reflexivity | right; discriminate]. Qed.

Lemma InputParams_new_invalid (shp geojson segmentized : string) (resolution : Z)
    (hexagons : string) :
  resolution < 0 \/ 15 < resolution \/ shp = "" \/ geojson = "" \/
    segmentized = "" \/ hexagons = "" ->
  InputParams.new shp geojson segmentized resolution hexagons = Raise ValidationError.
Proof.
  intros Hbad. unfold InputParams.new.
  unfold InputParams.shapefile_filepath_field, InputParams.output_filepath_geojson_field,
    InputParams.output_filepath_geojson_segmentized_field,
    InputParams.output_filepath_h3_hexagons_field.
  destruct (path_empty_dec shp) as [->|Ha]; [reflexivity|].
  rewrite (validate_path_nonempty shp Ha). cbn [mbind result_bind].
  destruct (path_empty_dec geojson) as [->|Hb]; [reflexivity|].
  rewrite (validate_path_nonempty geojson Hb). cbn [mbind result_bind].
  destruct (path_empty_dec segmentized) as [->|Hc]; [reflexivity|].
  rewrite (validate_path_nonempty segmentized Hc). cbn [mbind result_bind].
  rewrite validate_resolution.
  destruct ((0 <=? resolution) && (resolution <=? 15)) eqn:Hres; [|reflexivity].
  cbn [mbind result_bind].
  destruct (path_empty_dec hexagons) as [->|Hd]; [reflexivity|].
  apply andb_true_iff in Hres as [Hlo Hhi]. apply Z.leb_le in Hlo, Hhi.
  destruct Hbad as [?|[?|[?|[?|[?|?]]]]]; first [lia | congruence].
Qed.

Lemma InputParams_new_valid (shp geojson segmentized : string) (resolution : Z)
    (hexagons : string) :
  0 <= resolution <= 15 -> shp <> "" -> geojson <> "" -> segmentized <> "" ->
  hexagons <> "" ->
  InputParams.new shp geojson segmentized resolution hexagons
  = Ok {| InputParams.shapefile_filepath := shp;
          InputParams.output_filepath_geojson := geojson;
          InputParams.output_filepath_geojson_segmentized := segmentized;
          InputParams.h3_resolution := resolution;
          InputParams.output_filepath_h3_hexagons := hexagons |}.
Proof.
  intros [Hlo Hhi] Ha Hb Hc Hd. unfold InputParams.new.
  unfold InputParams.shapefile_filepath_field, InputParams.output_filepath_geojson_field,
    InputParams.output_filepath_geojson_segmentized_field,
    InputParams.output_filepath_h3_hexagons_field.
  rewrite (validate_path_nonempty shp Ha). cbn [mbind result_bind].
  rewrite (validate_path_nonempty geojson Hb). cbn [mbind result_bind].
  rewrite (validate_path_nonempty segmentized Hc). cbn [mbind result_bind].
  rewrite validate_resolution.
  apply Z.leb_le in Hlo, Hhi. rewrite Hlo, Hhi. cbn [andb mbind result_bind].
  rewrite (validate_path_nonempty hexagons Hd). reflexivity.
Qed.

(** C6 (amended). A resolution outside 0..15 or an empty file path is
    refused when [InputParams] is built: the program stops with a
    [ValidationError] and the world, with its files and its record of I/O
    attempts, is as it was. *)
Theorem invalid_input_params_rejected_before_io `{Libraries}
    (shp geojson segmentized : string) (resolution : Z) (hexagons : string)
    (w : world) :
  resolution < 0 \/ 15 < resolution \/ shp = "" \/ geojson = "" \/
    segmentized = "" \/ hexagons = "" ->
  main_construct shp geojson segmentized resolution hexagons w
  = (Raise ValidationError, w).
Proof.
  intros Hbad. unfold main_construct.
  unfold mbind, M_bind, bind, lift.
  rewrite (InputParams_new_invalid _ _ _ _ _ Hbad). reflexivity.
Qed.

Lemma invalid_input_params_rejected_before_io_witness :
  (16 < 0 \/ 15 < 16 \/ "in.shp" = "" \/ "" = "" \/ "seg.json" = "" \/ "hex.csv" = "") /\
  @main_construct (Reference.only Reference.short_road)
     "in.shp" "" "seg.json" 16 "hex.csv" (Reference.empty_world _)
  = (Raise ValidationError, Reference.empty_world _).
Proof.
  split.
  - right. left. lia.
  - apply (@invalid_input_params_rejected_before_io
             (Reference.only Reference.short_road)).
    right. left. lia.
Defined.

(** C6, as stated, fails for [max_segment_length]: a length that is not
    positive is no part of [InputParams], it reaches the code only as an
    argument of [segmentize_linestring] on a converter that exists, and by
    then the shapefile was read and both GeoJSON files were written. *)
Lemma nonpositive_segment_length_rejected_after_io :
  let r := @construct_then_segmentize (Reference.only Reference.short_road)
             "in.shp" "raw.json" "seg.json" 8 "hex.csv"
             {| shapely.coords := [[0; 0]; [0.003; 0]]%float |} (-1)%float
             (Reference.empty_world _) in
  fst r = Raise GEOSException /\
  trace (snd r) = [IoRead "in.shp"; IoWrite "raw.json"; IoWrite "seg.json"].
Proof. vm_compute. split; reflexivity. Qed.

(** ** The cell mapper *)

Section CellMapper.
Context `{Libraries}.
Import ShapefileToH3Converter.

Lemma enumerate_elem_of (order : SetIteration) (s : gset string) (x : string) :
  x ∈ enumerate order s <-> x ∈ s.
Proof. rewrite (enumerate_perm order s). apply elem_of_elements. Qed.

Lemma enumerate_NoDup (order : SetIteration) (s : gset string) :
  NoDup (enumerate order s).
Proof. rewrite (enumerate_perm order s). apply NoDup_elements. Qed.

Lemma enumerate_length (order : SetIteration) (l : list string) :
  (length (enumerate order (list_to_set l)) <= length l)%nat.
Proof.
  apply submseteq_length, NoDup_submseteq; [apply enumerate_NoDup|].
  intros x Hx. apply enumerate_elem_of in Hx. by apply elem_of_list_to_set in Hx.
Qed.

(** One round of the loop, read off an [Ok] result. *)
Lemma append_cells_cons (c : Coordinate.t) (rest : list Coordinate.t)
    (resolution : Z) (acc out : list string) :
  append_cells (c :: rest) resolution acc = Ok out ->
  exists lat lng cell neighbors,
    Coordinate.root c !! 1%nat = Some lat /\
    Coordinate.root c !! 0%nat = Some lng /\
    latlng_to_cell lat lng resolution = Ok cell /\
    grid_ring cell 1 = Ok neighbors /\
    append_cells rest resolution (acc ++ [cell] ++ neighbors) = Ok out.
Proof.
  cbn [append_cells]. unfold index.
  destruct (Coordinate.root c !! 1%nat) as [lat|] eqn:Hlat; [|discriminate].
  destruct (Coordinate.root c !! 0%nat) as [lng|] eqn:Hlng; [|discriminate].
  cbn [mbind result_bind].
  destruct (latlng_to_cell lat lng resolution) as [cell|] eqn:Hcell; [|discriminate].
  cbn [mbind result_bind].
  destruct (grid_ring cell 1) as [neighbors|] eqn:Hns; [|discriminate].
  cbn [mbind result_bind]. intros Hrest.
  exists lat, lng, cell, neighbors. repeat split; assumption.
Qed.

Lemma append_cells_keeps (coordinates : list Coordinate.t) (resolution : Z) :
  forall acc out, append_cells coordinates resolution acc = Ok out ->
  forall x, x ∈ acc -> x ∈ out.
Proof.
  induction coordinates as [|c rest IH]; intros acc out Hrun x Hx.
  - cbn in Hrun. by inversion Hrun; subst.
  - apply append_cells_cons in Hrun as (lat & lng & cell & ns & _ & _ & _ & _ & Hrest).
    apply (IH _ _ Hrest). apply elem_of_app. by left.
Qed.

Lemma append_cells_covers (coordinates : list Coordinate.t) (resolution : Z) :
  forall acc out, append_cells coordinates resolution acc = Ok out ->
  forall c, c ∈ coordinates ->
  exists lat lng cell,
    Coordinate.root c !! 1%nat = Some lat /\
    Coordinate.root c !! 0%nat = Some lng /\
    latlng_to_cell lat lng resolution = Ok cell /\
    cell ∈ out.
Proof.
  induction coordinates as [|c0 rest IH]; intros acc out Hrun c Hc.
  - by apply elem_of_nil in Hc.
  - apply append_cells_cons in Hrun
      as (lat & lng & cell & ns & Hlat & Hlng & Hcell & _ & Hrest).
    apply elem_of_cons in Hc as [->|Hc].
    + exists lat, lng, cell. repeat split; try assumption.
      apply (append_cells_keeps _ _ _ _ Hrest).
      apply elem_of_app. right. apply elem_of_app. left. apply list_elem_of_singleton.
      reflexivity.
    + apply (IH _ _ Hrest c Hc).
Qed.

Lemma append_cells_length (coordinates : list Coordinate.t) (resolution : Z) :
  (forall cell ns, grid_ring cell 1 = Ok ns -> (length ns <= 6)%nat) ->
  forall acc out, append_cells coordinates resolution acc = Ok out ->
  (length out <= length acc + 7 * length coordinates)%nat.
Proof.
  intros Hring. induction coordinates as [|c rest IH]; intros acc out Hrun.
  - cbn in Hrun. inversion Hrun; subst. cbn. lia.
  - apply append_cells_cons in Hrun
      as (lat & lng & cell & ns & _ & _ & _ & Hns & Hrest).
    apply IH in Hrest. apply Hring in Hns.
    rewrite !length_app in Hrest. cbn [length] in *. lia.
Qed.

(** The mapper returns whenever h3 answers for every coordinate. *)
Lemma append_cells_total (coordinates : list Coordinate.t) (resolution : Z) :
  (forall c, c ∈ coordinates -> exists lat lng cell ns,
      Coordinate.root c !! 1%nat = Some lat /\
      Coordinate.root c !! 0%nat = Some lng /\
      latlng_to_cell lat lng resolution = Ok cell /\
      grid_ring cell 1 = Ok ns) ->
  forall acc, exists out, append_cells coordinates resolution acc = Ok out.
Proof.
  induction coordinates as [|c rest IH]; intros Hall acc.
  - exists acc. reflexivity.
  - destruct (Hall c) as (lat & lng & cell & ns & Hlat & Hlng & Hcell & Hns).
    { apply elem_of_cons. by left. }
    cbn [append_cells]. unfold index. rewrite Hlat, Hlng. cbn [mbind result_bind].
    rewrite Hcell. cbn [mbind result_bind]. rewrite Hns. cbn [mbind result_bind].
    apply IH. intros c' Hc'. apply Hall. apply elem_of_cons. by right.
Qed.

Lemma mapper_Ok (order : SetIteration) (coordinates : list Coordinate.t)
    (resolution : Z) (out : list string) :
  _coordinates_to_h3_hexagons order coordinates resolution = Ok out ->
  exists hexagons,
    append_cells coordinates resolution [] = Ok hexagons /\
    out = enumerate order (list_to_set hexagons).
Proof.
  unfold _coordinates_to_h3_hexagons.
  destruct (append_cells coordinates resolution []) as [hexagons|]; [|discriminate].
  cbn [mbind result_bind]. intros Hout. inversion Hout. eauto.
Qed.

Lemma mapper_total (order : SetIteration) (coordinates : list Coordinate.t)
    (resolution : Z) :
  (forall c, c ∈ coordinates -> exists lat lng cell ns,
      Coordinate.root c !! 1%nat = Some lat /\
      Coordinate.root c !! 0%nat = Some lng /\
      latlng_to_cell lat lng resolution = Ok cell /\
      grid_ring cell 1 = Ok ns) ->
  exists out, _coordinates_to_h3_hexagons order coordinates resolution = Ok out.
Proof.
  intros Hall. destruct (append_cells_total _ _ Hall []) as [hexagons Hrun].
  unfold _coordinates_to_h3_hexagons. rewrite Hrun. cbn [mbind result_bind]. eauto.
Qed.

(** C4. Whatever order the set is listed in, the list the mapper returns
    holds, for every input coordinate, the cell h3 resolves for its
    latitude [root[1]] and longitude [root[0]] at the resolution. *)
Theorem mapper_covers_every_coordinate (order : SetIteration)
    (coordinates : list Coordinate.t) (resolution : Z) (out : list string) :
  _coordinates_to_h3_hexagons order coordinates resolution = Ok out ->
  forall c, c ∈ coordinates ->
  exists lat lng cell,
    Coordinate.root c !! 1%nat = Some lat /\
    Coordinate.root c !! 0%nat = Some lng /\
    latlng_to_cell lat lng resolution = Ok cell /\
    cell ∈ out.
Proof.
  intros Hrun c Hc. apply mapper_Ok in Hrun as (hexagons & Hloop & ->).
  destruct (append_cells_covers _ _ _ _ Hloop c Hc)
    as (lat & lng & cell & Hlat & Hlng & Hcell & Hin).
  exists lat, lng, cell. repeat split; try assumption.
  apply enumerate_elem_of, elem_of_list_to_set, Hin.
Qed.

(** C5. Given that a ring of grid distance 1 has at most 6 cells, the list
    the mapper returns repeats no cell and is at most 7 times as long as
    the input. *)
Theorem mapper_output_distinct_and_bounded (order : SetIteration)
    (coordinates : list Coordinate.t) (resolution : Z) (out : list string) :
  (forall cell ns, grid_ring cell 1 = Ok ns -> (length ns <= 6)%nat) ->
  _coordinates_to_h3_hexagons order coordinates resolution = Ok out ->
  NoDup out /\ (length out <= 7 * length coordinates)%nat.
Proof.
  intros Hring Hrun. apply mapper_Ok in Hrun as (hexagons & Hloop & ->). split.
  - apply enumerate_NoDup.
  - etrans; [apply enumerate_length|].
    apply (append_cells_length _ _ Hring) in Hloop. cbn [length] in Hloop. lia.
Qed.

(** C9. Two calls on the same coordinates and resolution, each listing its
    set in an order of its own, both return or both fail, and the lists
    they return hold the same cells. *)
Theorem mapper_deterministic_as_set (order1 order2 : SetIteration)
    (coordinates : list Coordinate.t) (resolution : Z) (out1 : list string) :
  _coordinates_to_h3_hexagons order1 coordinates resolution = Ok out1 ->
  exists out2,
    _coordinates_to_h3_hexagons order2 coordinates resolution = Ok out2 /\
    (list_to_set out1 : gset string) = list_to_set out2 /\
    out1 ≡ₚ out2.
Proof.
  intros Hrun. apply mapper_Ok in Hrun as (hexagons & Hloop & ->).
  exists (enumerate order2 (list_to_set hexagons)). split; [|split].
  - unfold _coordinates_to_h3_hexagons. rewrite Hloop. reflexivity.
  - apply set_eq. intros x. rewrite !elem_of_list_to_set, !enumerate_elem_of.
    reflexivity.
  - by rewrite !enumerate_perm.
Qed.

End CellMapper.

Lemma mapper_covers_every_coordinate_witness :
  exists lat lng cell,
    [151.2; -33.9]%float !! 1%nat = Some lat /\
    [151.2; -33.9]%float !! 0%nat = Some lng /\
    Reference.quadrant_cell lat lng 8 = Ok cell /\
    cell ∈ ["SW"; "SE"; "NW"; "NE"].
Proof.
  apply (@mapper_covers_every_coordinate (Reference.only Reference.short_road)
           Reference.in_set_order
           [ {| Coordinate.root := [0.002; 0]%float |};
             {| Coordinate.root := [151.2; -33.9]%float |} ] 8
           ["SW"; "SE"; "NW"; "NE"] eq_refl
           {| Coordinate.root := [151.2; -33.9]%float |}).
  apply elem_of_cons. right. apply elem_of_cons. left. reflexivity.
Defined.

Lemma mapper_output_distinct_and_bounded_witness :
  NoDup ["SW"; "SE"; "NW"; "NE"] /\ (4 <= 7 * 2)%nat.
Proof.
  apply (@mapper_output_distinct_and_bounded (Reference.only Reference.short_road)
           Reference.in_set_order
           [ {| Coordinate.root := [0.002; 0]%float |};
             {| Coordinate.root := [151.2; -33.9]%float |} ] 8
           ["SW"; "SE"; "NW"; "NE"]).
  - intros cell ns Hns. inversion Hns; subst. clear Hns.
    etrans; [apply length_filter|]. cbn. lia.
  - reflexivity.
Defined.

Lemma mapper_deterministic_as_set_witness :
  exists out2,
    @ShapefileToH3Converter._coordinates_to_h3_hexagons
      (Reference.only Reference.short_road) Reference.reversed
      [ {| Coordinate.root := [0.002; 0]%float |};
        {| Coordinate.root := [151.2; -33.9]%float |} ] 8 = Ok out2 /\
    (list_to_set ["SW"; "SE"; "NW"; "NE"] : gset string) = list_to_set out2 /\
    ["SW"; "SE"; "NW"; "NE"] ≡ₚ out2.
Proof.
  apply (@mapper_deterministic_as_set (Reference.only Reference.short_road)
           Reference.in_set_order Reference.reversed
           [ {| Coordinate.root := [0.002; 0]%float |};
             {| Coordinate.root := [151.2; -33.9]%float |} ] 8
           ["SW"; "SE"; "NW"; "NE"]).
  reflexivity.
Defined.

(** ** Effects of the methods on the world *)

Section Effects.
Context `{Libraries}.

Lemma bind_inv {A B} (m : M A) (k : A -> M B) (w w' : world) (r : result B) :
  (m ≫= k) w = (r, w') ->
  (exists a w1, m w = (Ok a, w1) /\ k a w1 = (r, w')) \/
  (exists e, m w = (Raise e, w') /\ r = Raise e).
Proof.
  unfold mbind, M_bind, bind. destruct (m w) as [[a|e] w1]; intros Hrun.
  - left. eauto.
  - right. inversion Hrun; subst. eauto.
Qed.

Lemma bind_Ok {A B} (m : M A) (k : A -> M B) (w w' : world) (b : B) :
  (m ≫= k) w = (Ok b, w') ->
  exists a w1, m w = (Ok a, w1) /\ k a w1 = (Ok b, w').
Proof.
  intros Hrun. apply bind_inv in Hrun as [Hok|(e & _ & Hr)]; [exact Hok|discriminate].
Qed.

Lemma bind_run {A B} (m : M A) (k : A -> M B) (w w1 : world) (a : A) :
  m w = (Ok a, w1) -> (m ≫= k) w = k a w1.
Proof. intros Hm. unfold mbind, M_bind, bind. by rewrite Hm. Qed.

Lemma bind_raise {A B} (m : M A) (k : A -> M B) (w w1 : world) (e : exn) :
  m w = (Raise e, w1) -> (m ≫= k) w = (Raise e, w1).
Proof. intros Hm. unfold mbind, M_bind, bind. by rewrite Hm. Qed.

Section Preorder.
Context (P : relation world) `{!PreOrder P}.

Lemma respects_ret {A} (a : A) : respects P (mret a).
Proof. intros w r w' Hrun. inversion Hrun. reflexivity. Qed.

Lemma respects_raise {A} (e : exn) : respects P (@raise _ A e).
Proof. intros w r w' Hrun. inversion Hrun. reflexivity. Qed.

Lemma respects_lift {A} (x : result A) : respects P (lift x).
Proof. intros w r w' Hrun. inversion Hrun. reflexivity. Qed.

Lemma respects_bind {A B} (m : M A) (k : A -> M B) :
  respects P m -> (forall a, respects P (k a)) -> respects P (m ≫= k).
Proof.
  intros Hm Hk w r w' Hrun.
  apply bind_inv in Hrun as [(a & w1 & Hma & Hka)|(e & Hme & _)].
  - etrans; [apply (Hm _ _ _ Hma)|apply (Hk _ _ _ _ Hka)].
  - apply (Hm _ _ _ Hme).
Qed.

Lemma respects_for_each {A} (xs : list A) (body : A -> M unit) :
  (forall x, respects P (body x)) -> respects P (for_each xs body).
Proof.
  intros Hbody. induction xs as [|x rest IH]; cbn [for_each].
  - apply respects_ret.
  - apply respects_bind; [apply Hbody|]. intros _. exact IH.
Qed.

Lemma respects_collect {A B} (xs : list A) (body : A -> M B) :
  (forall x, respects P (body x)) -> respects P (collect xs body).
Proof.
  intros Hbody. induction xs as [|x rest IH]; cbn [collect].
  - apply respects_ret.
  - apply respects_bind; [apply Hbody|]. intros y.
    apply respects_bind; [exact IH|]. intros ys. apply respects_ret.
Qed.

Lemma respects_load (l : loc) : respects P (load l).
Proof.
  intros w r w' Hrun. unfold load in Hrun.
  destruct (heap w !! l); inversion Hrun; reflexivity.
Qed.

End Preorder.

Lemma respects_weaken (P Q : relation world) {A} (m : M A) :
  (forall w w', P w w' -> Q w w') -> respects P m -> respects Q m.
Proof. intros HPQ Hm w r w' Hrun. apply HPQ, (Hm _ _ _ Hrun). Qed.

Global Instance grows_preorder : PreOrder grows.
Proof.
  split.
  - intros w. split; [|done]. exists []. by rewrite app_nil_r.
  - intros w1 w2 w3 ([e1 H1] & Hf1 & Ht1) ([e2 H2] & Hf2 & Ht2). split; [|split].
    + exists (e1 ++ e2). by rewrite H2, H1, app_assoc.
    + congruence.
    + congruence.
Qed.

Global Instance frame_preorder : PreOrder frame.
Proof.
  split.
  - intros w. split; [|split]; eauto.
  - intros w1 w2 w3 (Ho1 & Hg1 & Hf1 & Ht1) (Ho2 & Hg2 & Hf2 & Ht2).
    split; [|split; [|split]]; [| |congruence|congruence].
    + intros l o Hl Hng. eauto.
    + intros l o Hl Hg. destruct (Hg1 _ _ Hl Hg) as (o' & Hl' & Hg'). eauto.
Qed.

Lemma grows_frame (w w' : world) : grows w w' -> frame w w'.
Proof.
  intros ([ext Hh] & Hf & Ht). split; [|split; [|split]]; [| |done|done].
  - intros l o Hl _. rewrite Hh. by apply lookup_app_l_Some.
  - intros l o Hl Hg. exists o. split; [|done]. rewrite Hh. by apply lookup_app_l_Some.
Qed.

Lemma eq_grows (w w' : world) : w = w' -> grows w w'.
Proof. intros ->. reflexivity. Qed.

(** *** Reads *)

Ltac rbind := apply respects_bind; [apply _| |].
Ltac rleaf :=
  first [apply respects_ret | apply respects_raise | apply respects_lift
        | apply respects_load]; apply _.
Ltac rcollect := apply respects_collect; [apply _|].
Ltac rpure lem := eapply respects_weaken; [apply eq_grows|apply lem].
Ltac read_only := rbind; [rleaf|intros [ | | | | ]; rleaf].

Lemma load_list_pure (l : loc) : respects eq (load_list l).
Proof. unfold load_list. read_only. Qed.

Lemma load_root_pure (l : loc) : respects eq (load_root l).
Proof. unfold load_root. read_only. Qed.

Lemma load_geometry_pure (l : loc) : respects eq (load_geometry l).
Proof. unfold load_geometry. read_only. Qed.

Lemma load_feature_geometry_pure (l : loc) : respects eq (load_feature_geometry l).
Proof. unfold load_feature_geometry. read_only. Qed.

Lemma load_features_pure (l : loc) : respects eq (load_features l).
Proof. unfold load_features. read_only. Qed.

Lemma dump_pure (l : loc) : respects eq (ShapefileToH3Converter.dump l).
Proof.
  intros w r w' Hrun. unfold ShapefileToH3Converter.dump in Hrun.
  destruct (read_model (heap w) l); by inversion Hrun.
Qed.

Lemma load_coordinates_pure (l : loc) :
  respects eq (ShapefileToH3Converter.load_coordinates l).
Proof.
  unfold ShapefileToH3Converter.load_coordinates.
  rbind; [apply load_list_pure|]. intros items.
  rcollect. intros c.
  rbind; [apply load_root_pure|]. intros r. rleaf.
Qed.

(** *** Allocation *)

Lemma alloc_grows (o : obj) : respects grows (alloc o).
Proof.
  intros w r w' Hrun. unfold alloc in Hrun. inversion Hrun; subst.
  split; [|done]. by exists [o].
Qed.

Lemma new_coordinate_grows (c : Coordinate.t) : respects grows (new_coordinate c).
Proof. apply alloc_grows. Qed.

Lemma model_copy_grows (data : loc) : respects grows (model_copy data).
Proof.
  unfold model_copy. rbind; [rleaf|].
  intros [ | | | | ]; first [apply alloc_grows | rleaf].
Qed.

Lemma segmentize_linestring_grows (linestring : shapely.LineString) (m : float) :
  respects grows (ShapefileToH3Converter.segmentize_linestring linestring m).
Proof.
  unfold ShapefileToH3Converter.segmentize_linestring.
  rbind; [rleaf|]. intros segments.
  rbind; [|intros cs; apply alloc_grows].
  rcollect. intros point.
  rbind; [rleaf|]. intros c. apply new_coordinate_grows.
Qed.

Lemma extract_coordinates_grows (data : loc) :
  respects grows (ShapefileToH3Converter._extract_coordinates data).
Proof.
  unfold ShapefileToH3Converter._extract_coordinates.
  rbind; [rpure load_features_pure|]. intros fl.
  rbind; [rpure load_list_pure|]. intros fs.
  rbind; [|intros per_feature; apply alloc_grows].
  rcollect. intros feature.
  eapply respects_weaken; [apply eq_grows|].
  rbind; [apply load_feature_geometry_pure|]. intros g.
  rbind; [apply load_geometry_pure|]. intros [ty cl].
  apply load_list_pure.
Qed.

(** *** Assignment to a geometry *)

Lemma set_coordinates_frame (g new : loc) : respects frame (set_coordinates g new).
Proof.
  intros w r w' Hrun. unfold set_coordinates in Hrun.
  apply bind_inv in Hrun as [(o & w1 & Hload & Hrest)|(e & Hload & _)].
  - unfold load in Hload. destruct (heap w !! g) as [o'|] eqn:Hg; [|discriminate].
    inversion Hload; subst o' w1. clear Hload.
    destruct o as [r0|items|ty c|i t p g'|t f c]; try (inversion Hrest; reflexivity).
    unfold store in Hrest. inversion Hrest; subst. clear Hrest.
    unfold set_heap. split; [|split; [|done]]; simpl.
    + intros l o Hl Hng. destruct (decide (l = g)) as [Heq|Hne]; [subst l|].
      * rewrite Hg in Hl. inversion Hl; subst. discriminate.
      * by rewrite list_lookup_insert_ne.
    + intros l o Hl Hig. destruct (decide (l = g)) as [Heq|Hne]; [subst l|].
      * exists (OGeometry ty new). split; [|reflexivity].
        apply list_lookup_insert_eq. by eapply lookup_lt_Some.
      * exists o. by rewrite list_lookup_insert_ne.
  - unfold load in Hload. destruct (heap w !! g); inversion Hload; reflexivity.
Qed.

Lemma segmentize_feature_frame (feature : loc) :
  respects frame (ShapefileToH3Converter.segmentize_feature feature).
Proof.
  unfold ShapefileToH3Converter.segmentize_feature.
  rbind; [eapply respects_weaken; [intros w w' Hw; apply grows_frame, eq_grows, Hw|];
          apply load_feature_geometry_pure|]. intros g.
  rbind; [eapply respects_weaken; [intros w w' Hw; apply grows_frame, eq_grows, Hw|];
          apply load_geometry_pure|]. intros [ty cl].
  destruct (FeatureGeometryType.eqb ty FeatureGeometryType.LineString); [|rleaf].
  rbind; [eapply respects_weaken; [intros w w' Hw; apply grows_frame, eq_grows, Hw|];
          apply load_list_pure|]. intros items.
  rbind.
  { eapply respects_weaken; [intros w w' Hw; apply grows_frame, eq_grows, Hw|].
    rcollect. intros c. apply load_root_pure. }
  intros coords. rbind; [rleaf|]. intros linestring.
  rbind; [eapply respects_weaken; [apply grows_frame|];
          apply segmentize_linestring_grows|]. intros new.
  apply set_coordinates_frame.
Qed.

Lemma segmentize_geojson_data_frame (data : loc) :
  respects frame (ShapefileToH3Converter.segmentize_geojson_data data).
Proof.
  unfold ShapefileToH3Converter.segmentize_geojson_data.
  rbind; [eapply respects_weaken; [apply grows_frame|]; apply model_copy_grows|].
  intros data_copy.
  rbind; [eapply respects_weaken; [intros w w' Hw; apply grows_frame, eq_grows, Hw|];
          apply load_features_pure|]. intros fl.
  rbind; [eapply respects_weaken; [intros w w' Hw; apply grows_frame, eq_grows, Hw|];
          apply load_list_pure|]. intros fs.
  rbind; [|intros _; rleaf].
  apply respects_for_each; [apply _|]. intros feature. apply segmentize_feature_frame.
Qed.

End Effects.

(** ** What models denote, and how reads survive changes of the heap *)

Section Reading.
Context `{Libraries}.

Lemma grows_heap_sub (w w' : world) : grows w w' -> heap_sub (heap w) (heap w').
Proof. intros ([ext ->] & _) l o Hl. by apply lookup_app_l_Some. Qed.

Lemma frame_heap_sub_ng (w w' : world) : frame w w' -> heap_sub_ng (heap w) (heap w').
Proof. intros (Hng & _). exact Hng. Qed.

Lemma heap_sub_weaken (h h' : list obj) : heap_sub h h' -> heap_sub_ng h h'.
Proof. intros Hsub l o Hl _. by apply Hsub. Qed.

Lemma read_list_sub_ng (h h' : list obj) (l : loc) (items : list loc) :
  heap_sub_ng h h' -> read_list h l = Some items -> read_list h' l = Some items.
Proof.
  intros Hsub. unfold read_list.
  destruct (h !! l) as [[ | items' | | | ]|] eqn:Hl; try discriminate.
  intros Heq. by rewrite (Hsub _ _ Hl eq_refl).
Qed.

Lemma read_coordinate_sub_ng (h h' : list obj) (l : loc) (c : Coordinate.t) :
  heap_sub_ng h h' -> read_coordinate h l = Some c -> read_coordinate h' l = Some c.
Proof.
  intros Hsub. unfold read_coordinate.
  destruct (h !! l) as [[ r | | | | ]|] eqn:Hl; try discriminate.
  intros Heq. by rewrite (Hsub _ _ Hl eq_refl).
Qed.

Lemma read_coordinates_inv (h : list obj) (l : loc) (cs : list Coordinate.t) :
  read_coordinates h l = Some cs <->
  exists items, read_list h l = Some items /\
                Forall2 (fun i c => read_coordinate h i = Some c) items cs.
Proof.
  unfold read_coordinates. split.
  - destruct (read_list h l) as [items|]; [|discriminate]. cbn.
    intros Hm. exists items. split; [done|]. by apply mapM_Some.
  - intros (items & -> & Hall). cbn. by apply mapM_Some.
Qed.

Lemma read_coordinates_sub_ng (h h' : list obj) (l : loc) (cs : list Coordinate.t) :
  heap_sub_ng h h' -> read_coordinates h l = Some cs -> read_coordinates h' l = Some cs.
Proof.
  intros Hsub Hread. apply read_coordinates_inv in Hread as (items & Hl & Hall).
  apply read_coordinates_inv. exists items. split.
  - by apply (read_list_sub_ng h).
  - eapply Forall2_impl; [exact Hall|]. intros i c. by apply read_coordinate_sub_ng.
Qed.

Lemma read_geometry_inv (h : list obj) (l : loc) (g : Geometry) :
  read_geometry h l = Some g <->
  exists c, h !! l = Some (OGeometry (geometry_type g) c) /\
            read_coordinates h c = Some (coordinates g).
Proof.
  unfold read_geometry. split.
  - destruct (h !! l) as [[ | |t c| | ]|]; try discriminate.
    destruct (read_coordinates h c) as [cs|] eqn:Hc; [|discriminate]. cbn.
    intros Heq. inversion Heq; subst. cbn. eauto.
  - intros (c & -> & ->). cbn. by destruct g.
Qed.

Lemma read_feature_inv (h : list obj) (l : loc) (f : Feature) :
  read_feature h l = Some f <->
  exists g, h !! l = Some (OFeature (id f) (feature_type f) (properties f) g) /\
            read_geometry h g = Some (geometry f).
Proof.
  unfold read_feature. split.
  - destruct (h !! l) as [[ | | |i t p g| ]|]; try discriminate.
    destruct (read_geometry h g) as [g'|] eqn:Hg; [|discriminate]. cbn.
    intros Heq. inversion Heq; subst. cbn. eauto.
  - intros (g & -> & ->). cbn. by destruct f.
Qed.

Lemma read_model_inv (h : list obj) (l : loc) (m : GeoJsonModel) :
  read_model h l = Some m <->
  exists fl items, h !! l = Some (OGeoJsonModel (type m) fl (crs m)) /\
                   read_list h fl = Some items /\
                   Forall2 (fun i f => read_feature h i = Some f) items (features m).
Proof.
  unfold read_model. split.
  - destruct (h !! l) as [[ | | | |t fl c]|]; try discriminate.
    destruct (read_list h fl) as [items|] eqn:Hfl; [|discriminate]. cbn.
    destruct (mapM (read_feature h) items) as [fs|] eqn:Hfs; [|discriminate]. cbn.
    intros Heq. inversion Heq; subst. cbn. exists fl, items.
    split; [done|]. split; [done|]. by apply mapM_Some.
  - intros (fl & items & -> & -> & Hall). cbn.
    apply mapM_Some in Hall. rewrite Hall. cbn. by destruct m.
Qed.

Lemma read_geometry_sub (h h' : list obj) (l : loc) (g : Geometry) :
  heap_sub h h' -> read_geometry h l = Some g -> read_geometry h' l = Some g.
Proof.
  intros Hsub Hread. apply read_geometry_inv in Hread as (c & Hl & Hc).
  apply read_geometry_inv. exists c. split; [by apply Hsub|].
  apply (read_coordinates_sub_ng h); [by apply heap_sub_weaken|done].
Qed.

Lemma read_feature_sub (h h' : list obj) (l : loc) (f : Feature) :
  heap_sub h h' -> read_feature h l = Some f -> read_feature h' l = Some f.
Proof.
  intros Hsub Hread. apply read_feature_inv in Hread as (g & Hl & Hg).
  apply read_feature_inv. exists g. split; [by apply Hsub|].
  by apply (read_geometry_sub h).
Qed.

Lemma read_model_sub (h h' : list obj) (l : loc) (m : GeoJsonModel) :
  heap_sub h h' -> read_model h l = Some m -> read_model h' l = Some m.
Proof.
  intros Hsub Hread. apply read_model_inv in Hread as (fl & items & Hl & Hfl & Hall).
  apply read_model_inv. exists fl, items. split; [by apply Hsub|]. split.
  - apply (read_list_sub_ng h); [by apply heap_sub_weaken|done].
  - eapply Forall2_impl; [exact Hall|]. intros i f. by apply read_feature_sub.
Qed.

(** *** Running reads and allocations forward *)

Lemma load_run (w : world) (l : loc) (o : obj) :
  heap w !! l = Some o -> load l w = (Ok o, w).
Proof. intros Hl. unfold load. by rewrite Hl. Qed.

Lemma load_list_run (w : world) (l : loc) (items : list loc) :
  read_list (heap w) l = Some items -> load_list l w = (Ok items, w).
Proof.
  unfold read_list, load_list. intros Hl.
  destruct (heap w !! l) as [[ | items' | | | ]|] eqn:Ho; try discriminate.
  inversion Hl; subst. by rewrite (bind_run _ _ _ _ _ (load_run _ _ _ Ho)).
Qed.

Lemma load_root_run (w : world) (l : loc) (c : Coordinate.t) :
  read_coordinate (heap w) l = Some c -> load_root l w = (Ok (Coordinate.root c), w).
Proof.
  unfold read_coordinate, load_root. intros Hl.
  destruct (heap w !! l) as [[ r | | | | ]|] eqn:Ho; try discriminate.
  inversion Hl; subst. by rewrite (bind_run _ _ _ _ _ (load_run _ _ _ Ho)).
Qed.

Lemma load_geometry_run (w : world) (l : loc) (t : FeatureGeometryType.t) (c : loc) :
  heap w !! l = Some (OGeometry t c) -> load_geometry l w = (Ok (t, c), w).
Proof.
  intros Ho. unfold load_geometry. by rewrite (bind_run _ _ _ _ _ (load_run _ _ _ Ho)).
Qed.

Lemma load_feature_geometry_run (w : world) (l : loc) (i t : string)
    (p : Properties) (g : loc) :
  heap w !! l = Some (OFeature i t p g) -> load_feature_geometry l w = (Ok g, w).
Proof.
  intros Ho. unfold load_feature_geometry.
  by rewrite (bind_run _ _ _ _ _ (load_run _ _ _ Ho)).
Qed.

Lemma load_features_run (w : world) (l : loc) (t : string) (f : loc) (c : Crs) :
  heap w !! l = Some (OGeoJsonModel t f c) -> load_features l w = (Ok f, w).
Proof.
  intros Ho. unfold load_features. by rewrite (bind_run _ _ _ _ _ (load_run _ _ _ Ho)).
Qed.

Lemma collect_pure_run {A B} (body : A -> M B) (w : world) (xs : list A) (ys : list B) :
  Forall2 (fun x y => body x w = (Ok y, w)) xs ys -> collect xs body w = (Ok ys, w).
Proof.
  induction 1 as [|x y xs ys Hx _ IH]; [reflexivity|].
  cbn [collect]. rewrite (bind_run _ _ _ _ _ Hx), (bind_run _ _ _ _ _ IH). reflexivity.
Qed.

Lemma alloc_spec (o : obj) (w : world) :
  exists w', alloc o w = (Ok (length (heap w)), w') /\ grows w w' /\
             heap w' = heap w ++ [o] /\ heap w' !! length (heap w) = Some o.
Proof.
  eexists. split; [reflexivity|]. split; [|split].
  - split; [|done]. by exists [o].
  - reflexivity.
  - unfold set_heap. simpl. by apply list_lookup_middle.
Qed.

(** A loop of allocating bodies: what holds of a result when it is
    produced still holds at the end, as the heap only grew. *)
Lemma collect_alloc_spec {A} (body : A -> M loc) (R : list obj -> loc -> A -> Prop) :
  (forall h h' l a, heap_sub h h' -> R h l a -> R h' l a) ->
  (forall a w, exists l w', body a w = (Ok l, w') /\ grows w w' /\ R (heap w') l a) ->
  forall xs w, exists ls w',
    collect xs body w = (Ok ls, w') /\ grows w w' /\ Forall2 (R (heap w')) ls xs.
Proof.
  intros Hmono Hbody. induction xs as [|x rest IH]; intros w.
  - exists [], w. split; [reflexivity|]. split; [reflexivity|constructor].
  - destruct (Hbody x w) as (l & w1 & Hx & Hg1 & HR).
    destruct (IH w1) as (ls & w2 & Hrest & Hg2 & Hall).
    exists (l :: ls), w2. split; [|split].
    + cbn [collect]. rewrite (bind_run _ _ _ _ _ Hx), (bind_run _ _ _ _ _ Hrest).
      reflexivity.
    + by etrans.
    + constructor; [|exact Hall]. eapply Hmono; [|exact HR]. by apply grows_heap_sub.
Qed.

Lemma new_coordinate_spec (c : Coordinate.t) (w : world) :
  exists l w', new_coordinate c w = (Ok l, w') /\ grows w w' /\
               read_coordinate (heap w') l = Some c.
Proof.
  destruct (alloc_spec (OCoordinate (Coordinate.root c)) w) as (w' & Hrun & Hg & _ & Hl).
  exists (length (heap w)), w'. split; [exact Hrun|]. split; [exact Hg|].
  unfold read_coordinate. rewrite Hl. by destruct c.
Qed.

Lemma new_geometry_spec (g : Geometry) (w : world) :
  exists l w', new_geometry g w = (Ok l, w') /\ grows w w' /\
               read_geometry (heap w') l = Some g.
Proof.
  destruct (collect_alloc_spec new_coordinate
              (fun h l c => read_coordinate h l = Some c)) with
    (xs := coordinates g) (w := w) as (cs & w1 & Hcs & Hg1 & Hall).
  { intros h h' l c Hsub. by apply read_coordinate_sub_ng, heap_sub_weaken. }
  { apply new_coordinate_spec. }
  destruct (alloc_spec (OList cs) w1) as (w2 & Hl & Hg2 & _ & Hl2).
  destruct (alloc_spec (OGeometry (geometry_type g) (length (heap w1))) w2)
    as (w3 & Hgeo & Hg3 & _ & Hl3).
  exists (length (heap w2)), w3. split; [|split].
  - unfold new_geometry.
    rewrite (bind_run _ _ _ _ _ Hcs), (bind_run _ _ _ _ _ Hl). exact Hgeo.
  - etrans; [exact Hg1|]. by etrans.
  - apply read_geometry_inv. exists (length (heap w1)). split; [exact Hl3|].
    apply read_coordinates_inv. exists cs. split.
    + unfold read_list. by rewrite (grows_heap_sub _ _ Hg3 _ _ Hl2).
    + eapply Forall2_impl; [exact Hall|]. intros i c.
      apply read_coordinate_sub_ng, heap_sub_weaken, grows_heap_sub. by etrans.
Qed.

Lemma new_feature_spec (f : Feature) (w : world) :
  exists l w', new_feature f w = (Ok l, w') /\ grows w w' /\
               read_feature (heap w') l = Some f.
Proof.
  destruct (new_geometry_spec (geometry f) w) as (g & w1 & Hgeo & Hg1 & Hread).
  destruct (alloc_spec (OFeature (id f) (feature_type f) (properties f) g) w1)
    as (w2 & Hrun & Hg2 & _ & Hl2).
  exists (length (heap w1)), w2. split; [|split].
  - unfold new_feature. rewrite (bind_run _ _ _ _ _ Hgeo). exact Hrun.
  - by etrans.
  - apply read_feature_inv. exists g. split; [exact Hl2|].
    apply (read_geometry_sub (heap w1)); [by apply grows_heap_sub|done].
Qed.

(** Validation builds a model that denotes the document it was given. *)
Lemma new_model_spec (m : GeoJsonModel) (w : world) :
  exists l w', new_model m w = (Ok l, w') /\ grows w w' /\
               read_model (heap w') l = Some m.
Proof.
  destruct (collect_alloc_spec new_feature
              (fun h l f => read_feature h l = Some f)) with
    (xs := features m) (w := w) as (fs & w1 & Hfs & Hg1 & Hall).
  { intros h h' l f Hsub. by apply read_feature_sub. }
  { apply new_feature_spec. }
  destruct (alloc_spec (OList fs) w1) as (w2 & Hl & Hg2 & _ & Hl2).
  destruct (alloc_spec (OGeoJsonModel (type m) (length (heap w1)) (crs m)) w2)
    as (w3 & Hmod & Hg3 & _ & Hl3).
  exists (length (heap w2)), w3. split; [|split].
  - unfold new_model.
    rewrite (bind_run _ _ _ _ _ Hfs), (bind_run _ _ _ _ _ Hl). exact Hmod.
  - etrans; [exact Hg1|]. by etrans.
  - apply read_model_inv. exists (length (heap w1)), fs. split; [exact Hl3|]. split.
    + unfold read_list. by rewrite (grows_heap_sub _ _ Hg3 _ _ Hl2).
    + eapply Forall2_impl; [exact Hall|]. intros i f.
      apply read_feature_sub, grows_heap_sub. by etrans.
Qed.

End Reading.

(** ** Extraction and the constructor *)

Section Constructor.
Context `{Libraries}.
Import ShapefileToH3Converter.

Lemma heap_sub_ng_trans (h1 h2 h3 : list obj) :
  heap_sub_ng h1 h2 -> heap_sub_ng h2 h3 -> heap_sub_ng h1 h3.
Proof. intros H12 H23 l o Hl Hng. apply H23; [|exact Hng]. by apply H12. Qed.

(** The coordinate lists of the features, as the inner loop of
    [_extract_coordinates] reads them. *)
Lemma extract_features_run (w : world) (items : list loc) (fs : list Feature) :
  Forall2 (fun i f => read_feature (heap w) i = Some f) items fs ->
  exists per_feature,
    collect items (fun feature =>
      g ← load_feature_geometry feature;
      '(_, cl) ← load_geometry g;
      load_list cl) w = (Ok per_feature, w) /\
    Forall2 (fun i c => read_coordinate (heap w) i = Some c)
      (concat per_feature) (concat (map (fun f => coordinates (geometry f)) fs)).
Proof.
  induction 1 as [|i f items fs Hf _ (per & Hrun & Hall)].
  - exists []. split; [reflexivity|constructor].
  - apply read_feature_inv in Hf as (g & Hi & Hg).
    apply read_geometry_inv in Hg as (cl & Hgl & Hcs).
    apply read_coordinates_inv in Hcs as (its & Hits & Hcs).
    exists (its :: per). split.
    + cbn [collect].
      erewrite bind_run; [|].
      2:{ erewrite bind_run; [|by eapply load_feature_geometry_run].
          erewrite bind_run; [|by eapply load_geometry_run].
          by apply load_list_run. }
      rewrite (bind_run _ _ _ _ _ Hrun). reflexivity.
    + cbn [concat map]. by apply Forall2_app.
Qed.

(** Extraction completeness: on a model that denotes [document],
    [_extract_coordinates] returns a new list of the coordinate objects of
    the model, in feature order and then point order. *)
Lemma extract_coordinates_spec (w : world) (data : loc) (document : GeoJsonModel) :
  read_model (heap w) data = Some document ->
  exists w', _extract_coordinates data w = (Ok (length (heap w)), w') /\
             grows w w' /\
             read_coordinates (heap w') (length (heap w))
               = Some (flat_coordinates document).
Proof.
  intros Hread. apply read_model_inv in Hread as (fl & items & Hl & Hfl & Hall).
  destruct (extract_features_run w items _ Hall) as (per & Hper & Hflat).
  destruct (alloc_spec (OList (concat per)) w) as (w' & Halloc & Hg & _ & Hnew).
  exists w'. split; [|split].
  - unfold _extract_coordinates.
    erewrite bind_run; [|by eapply load_features_run].
    erewrite bind_run; [|by apply load_list_run].
    rewrite (bind_run _ _ _ _ _ Hper). exact Halloc.
  - exact Hg.
  - apply read_coordinates_inv. exists (concat per). split.
    + unfold read_list. by rewrite Hnew.
    + eapply Forall2_impl; [exact Hflat|]. intros i c.
      by apply read_coordinate_sub_ng, heap_sub_weaken, grows_heap_sub.
Qed.

Lemma lift_Ok {A} (x : result A) (w w' : world) (a : A) :
  lift x w = (Ok a, w') -> x = Ok a /\ w' = w.
Proof. unfold lift. intros Heq. by inversion Heq. Qed.

Lemma open_w_Ok (path : string) (w w' : world) (u : unit) :
  open_w path w = (Ok u, w') ->
  heap w' = heap w /\ files w' = <[path := []]> (files w) /\
  trace w' = trace w ++ [IoWrite path].
Proof.
  unfold open_w. destruct (writable path); intros Heq; inversion Heq; subst. done.
Qed.

Lemma f_write_Ok (path : string) (text : Json) (w w' : world) (u : unit) :
  f_write path text w = (Ok u, w') ->
  heap w' = heap w /\
  files w' = <[path := default [] (files w !! path) ++ [text]]> (files w) /\
  trace w' = trace w.
Proof. unfold f_write. intros Heq. inversion Heq; subst. done. Qed.

Lemma dump_run (w : world) (model : loc) (document : GeoJsonModel) :
  read_model (heap w) model = Some document ->
  dump model w = (Ok (model_dump_json document), w).
Proof. intros Hread. unfold dump. by rewrite Hread. Qed.

(** C10 (amended). When the constructor completes, the [coordinates]
    property lists the coordinates of the document that was ingested, and,
    when the segmentized file has another path than the raw file, the raw
    file holds the dump of the ingested document. *)
Theorem constructor_keeps_pre_segmentation_outputs (input_params : InputParams.t)
    (w w' : world) (self : t) :
  __init__ input_params w = (Ok self, w') ->
  exists document,
    read_file (InputParams.shapefile_filepath input_params)
      = Ok (_shapefile_data self) /\
    model_validate_json (to_json (_shapefile_data self)) = Ok document /\
    read_coordinates (heap w') (coordinates_property self)
      = Some (flat_coordinates document) /\
    (InputParams.output_filepath_geojson input_params
       <> InputParams.output_filepath_geojson_segmentized input_params ->
     files w' !! InputParams.output_filepath_geojson input_params
       = Some [model_dump_json document]).
Proof.
  intros Hrun. unfold __init__ in Hrun.
  apply bind_Ok in Hrun as ([] & w0 & Hlog & Hrun).
  unfold log in Hlog. inversion Hlog as [Hw0]. clear Hlog.
  apply bind_Ok in Hrun as (df & w1 & Hdf & Hrun).
  apply lift_Ok in Hdf as [Hdf ->].
  apply bind_Ok in Hrun as (document & w1 & Hdoc & Hrun).
  apply lift_Ok in Hdoc as [Hdoc ->].
  destruct (new_model_spec document w0) as (data & w2 & Hnew & Hg2 & Hread2).
  rewrite (bind_run _ _ _ _ _ Hnew) in Hrun.
  destruct (extract_coordinates_spec w2 data document Hread2)
    as (w3 & Hext & Hg3 & Hcs3).
  rewrite (bind_run _ _ _ _ _ Hext) in Hrun.
  apply bind_Ok in Hrun as ([] & w4 & Hopen & Hrun).
  apply open_w_Ok in Hopen as (Hh4 & Hf4 & _).
  assert (read_model (heap w4) data = Some document) as Hread4.
  { rewrite Hh4. apply (read_model_sub (heap w2)); [by apply grows_heap_sub|done]. }
  rewrite (bind_run _ _ _ _ _ (dump_run _ _ _ Hread4)) in Hrun.
  apply bind_Ok in Hrun as ([] & w5 & Hwrite & Hrun).
  apply f_write_Ok in Hwrite as (Hh5 & Hf5 & _).
  apply bind_Ok in Hrun as (segmentized & w6 & Hseg & Hrun).
  apply segmentize_geojson_data_frame in Hseg as (Hng6 & _ & Hf6 & _).
  apply bind_Ok in Hrun as (cs' & w7 & Hext' & Hrun).
  apply extract_coordinates_grows in Hext' as Hg7.
  apply bind_Ok in Hrun as ([] & w8 & Hopen' & Hrun).
  apply open_w_Ok in Hopen' as (Hh8 & Hf8 & _).
  apply bind_Ok in Hrun as (text' & w9 & Hdump' & Hrun).
  apply dump_pure in Hdump' as <-.
  apply bind_Ok in Hrun as ([] & w10 & Hwrite' & Hrun).
  apply f_write_Ok in Hwrite' as (Hh10 & Hf10 & _).
  apply bind_Ok in Hrun as (cs & w11 & Hload & Hrun).
  apply load_coordinates_pure in Hload as <-.
  apply bind_Ok in Hrun as (hexagons & w12 & Hmap & Hrun).
  apply lift_Ok in Hmap as [Hmap ->].
  inversion Hrun; subst self w'. clear Hrun.
  exists document. cbn [_shapefile_data coordinates_property _coordinates].
  split; [exact Hdf|]. split; [exact Hdoc|]. split.
  - apply (read_coordinates_sub_ng (heap w3)); [|exact Hcs3].
    rewrite Hh10, Hh8. apply (heap_sub_ng_trans _ (heap w6)).
    + rewrite <- Hh4, <- Hh5. exact Hng6.
    + by apply heap_sub_weaken, grows_heap_sub.
  - intros Hne. rewrite Hf10, lookup_insert_ne by (intros Heq; by apply Hne).
    rewrite Hf8, lookup_insert_ne by (intros Heq; by apply Hne).
    destruct Hg7 as (_ & -> & _). rewrite Hf6, Hf5, lookup_insert_eq.
    rewrite Hf4, lookup_insert_eq. reflexivity.
Qed.

End Constructor.

Lemma constructor_keeps_pre_segmentation_outputs_witness :
  exists self w',
    Reference.constructed "raw.json" "seg.json" = (Ok self, w') /\
    exists document,
      @read_file (Reference.only Reference.short_road) "in.shp"
        = Ok (ShapefileToH3Converter._shapefile_data self) /\
      @model_validate_json (Reference.only Reference.short_road)
        (to_json (ShapefileToH3Converter._shapefile_data self)) = Ok document /\
      read_coordinates (heap w') (ShapefileToH3Converter.coordinates_property self)
        = Some (flat_coordinates document) /\
      ("raw.json" <> "seg.json" ->
       files w' !! "raw.json"
         = Some [@model_dump_json (Reference.only Reference.short_road) document]).
Proof.
  destruct (Reference.constructed "raw.json" "seg.json") as [[self|e] w'] eqn:Hrun.
  - exists self, w'. split; [reflexivity|].
    exact (@constructor_keeps_pre_segmentation_outputs
             (Reference.only Reference.short_road)
             (Reference.params "raw.json" "seg.json") _ _ _ Hrun).
  - exfalso. vm_compute in Hrun. discriminate Hrun.
Defined.

(** C10, as stated, fails when both GeoJSON outputs are given one path: the
    second write replaces the first, and the file holds the segmentized
    document. *)
Lemma same_path_overwrites_raw_file :
  let L := Reference.only Reference.short_road in
  let r := Reference.constructed "out.json" "out.json" in
  @read_file L "in.shp" = Ok Reference.short_road /\
  @model_validate_json L (@to_json L Reference.short_road) = Ok Reference.short_road /\
  (exists self, fst r = Ok self) /\
  files (snd r) !! "out.json" = Some [Reference.short_road_segmentized] /\
  files (snd r) !! "out.json" <> Some [@model_dump_json L Reference.short_road].
Proof.
  intros L r.
  assert (files (snd r) !! "out.json" = Some [Reference.short_road_segmentized])
    as Hfile by (vm_compute; reflexivity).
  split; [reflexivity|]. split; [reflexivity|]. split; [|split].
  - eexists. vm_compute. reflexivity.
  - exact Hfile.
  - intros Heq. pose proof (eq_trans (eq_sym Hfile) Heq) as Hsame.
    apply (f_equal (fun o => length <$> (flat_coordinates <$> default [] o))) in Hsame.
    vm_compute in Hsame. discriminate Hsame.
Qed.

(** ** Segmentization of a collection *)

Section Segmentation.
Context `{Libraries}.
Import ShapefileToH3Converter.

Lemma model_copy_Ok (data copy : loc) (w w1 : world) :
  model_copy data w = (Ok copy, w1) ->
  exists t f c,
    heap w !! data = Some (OGeoJsonModel t f c) /\
    copy = length (heap w) /\
    heap w1 = heap w ++ [OGeoJsonModel t f c] /\
    grows w w1.
Proof.
  intros Hrun. pose proof (model_copy_grows _ _ _ _ Hrun) as Hg.
  unfold model_copy in Hrun. apply bind_Ok in Hrun as (o & w0 & Hload & Hrun).
  unfold load in Hload. destruct (heap w !! data) as [o'|] eqn:Hdata; [|discriminate].
  inversion Hload; subst o' w0. clear Hload.
  destruct o as [r|items|ty cl|i t p g|t f c]; try discriminate.
  unfold alloc in Hrun. inversion Hrun; subst. exists t, f, c. done.
Qed.

(** The model [segmentize_geojson_data] returns is a new object, and it
    denotes what the model it was given denotes afterwards: the two share
    their features. *)
Theorem segmentize_geojson_data_shares_features (data out : loc) (w w' : world) :
  segmentize_geojson_data data w = (Ok out, w') ->
  out = length (heap w) /\
  heap w !! out = None /\
  read_model (heap w') out = read_model (heap w') data.
Proof.
  intros Hrun. unfold segmentize_geojson_data in Hrun.
  apply bind_Ok in Hrun as (copy & w1 & Hcopy & Hrun).
  apply model_copy_Ok in Hcopy as (t & f & c & Hdata & -> & Hh1 & Hg1).
  assert (respects frame
            (fl ← load_features (length (heap w)); fs ← load_list fl;
             for_each fs segmentize_feature;; mret (length (heap w)))) as Hrest.
  { apply respects_bind; [apply _| |].
    - eapply respects_weaken; [intros a b Hab; apply grows_frame, eq_grows, Hab|].
      apply load_features_pure.
    - intros fl. apply respects_bind; [apply _| |].
      + eapply respects_weaken; [intros a b Hab; apply grows_frame, eq_grows, Hab|].
        apply load_list_pure.
      + intros fs. apply respects_bind; [apply _| |].
        * apply respects_for_each; [apply _|]. intros x. apply segmentize_feature_frame.
        * intros _. apply respects_ret. apply _. }
  pose proof (Hrest _ _ _ Hrun) as (Hng & _).
  assert (out = length (heap w)) as ->.
  { apply bind_Ok in Hrun as (fl & w2 & _ & Hrun).
    apply bind_Ok in Hrun as (fs & w3 & _ & Hrun).
    apply bind_Ok in Hrun as (u & w4 & _ & Hrun). by inversion Hrun. }
  split; [reflexivity|]. split; [by apply lookup_ge_None_2|].
  assert (heap w' !! length (heap w) = Some (OGeoJsonModel t f c)) as Hout.
  { apply Hng; [|reflexivity]. rewrite Hh1. by apply list_lookup_middle. }
  assert (heap w' !! data = Some (OGeoJsonModel t f c)) as Hin.
  { apply Hng; [|reflexivity]. rewrite Hh1. by apply lookup_app_l_Some. }
  unfold read_model. by rewrite Hout, Hin.
Qed.




Lemma load_feature_geometry_Ok (l g : loc) (w w' : world) :
  load_feature_geometry l w = (Ok g, w') ->
  w' = w /\ exists i t p, heap w !! l = Some (OFeature i t p g).
Proof.
  intros Hrun. pose proof (load_feature_geometry_pure _ _ _ _ Hrun) as <-.
  split; [reflexivity|]. unfold load_feature_geometry in Hrun.
  apply bind_Ok in Hrun as (o & w0 & Hload & Hrun).
  unfold load in Hload. destruct (heap w !! l) as [o'|]; [|discriminate].
  inversion Hload; subst o' w0.
  destruct o as [r|items|ty cl|i t p g'|t f c]; try discriminate.
  inversion Hrun; subst. eauto.
Qed.

Lemma load_geometry_Ok (l cl : loc) (ty : FeatureGeometryType.t) (w w' : world) :
  load_geometry l w = (Ok (ty, cl), w') ->
  w' = w /\ heap w !! l = Some (OGeometry ty cl).
Proof.
  intros Hrun. pose proof (load_geometry_pure _ _ _ _ Hrun) as <-.
  split; [reflexivity|]. unfold load_geometry in Hrun.
  apply bind_Ok in Hrun as (o & w0 & Hload & Hrun).
  unfold load in Hload. destruct (heap w !! l) as [o'|]; [|discriminate].
  inversion Hload; subst o' w0.
  destruct o as [r|items|ty' cl'|i t p g'|t f c]; try discriminate.
  inversion Hrun; subst. by destruct ty, ty'.
Qed.

Lemma set_coordinates_Ok (g new : loc) (w w' : world) (u : unit) :
  set_coordinates g new w = (Ok u, w') ->
  exists ty, heap w' = <[g := OGeometry ty new]> (heap w).
Proof.
  intros Hrun. unfold set_coordinates in Hrun.
  apply bind_Ok in Hrun as (o & w0 & Hload & Hrun).
  unfold load in Hload. destruct (heap w !! g) as [o'|]; [|discriminate].
  inversion Hload; subst o' w0.
  destruct o as [r|items|ty cl|i t p g'|t f c]; try discriminate.
  unfold store in Hrun. inversion Hrun; subst. by exists ty.
Qed.

(** When the loop body returns, it has assigned to the geometry of its
    feature and left every other object as it was. *)
Lemma segmentize_feature_Ok (feature : loc) (w w' : world) (u : unit) :
  segmentize_feature feature w = (Ok u, w') ->
  exists i t p g ty cl,
    heap w !! feature = Some (OFeature i t p g) /\
    heap w !! g = Some (OGeometry ty cl) /\
    forall l o, l <> g -> heap w !! l = Some o -> heap w' !! l = Some o.
Proof.
  intros Hrun. unfold segmentize_feature in Hrun.
  apply bind_Ok in Hrun as (g & w1 & Hg & Hrun).
  apply load_feature_geometry_Ok in Hg as (-> & i & t & p & Hfeature).
  apply bind_Ok in Hrun as ([ty cl] & w1 & Hgeo & Hrun).
  apply load_geometry_Ok in Hgeo as (-> & Hgeo).
  exists i, t, p, g, ty, cl. split; [exact Hfeature|]. split; [exact Hgeo|].
  destruct ty. cbn [FeatureGeometryType.eqb] in Hrun.
  apply bind_Ok in Hrun as (items & w1 & Hitems & Hrun).
  apply load_list_pure in Hitems as <-.
  apply bind_Ok in Hrun as (coords & w1 & Hcoords & Hrun).
  assert (w = w1) as <-.
  { revert Hcoords. apply (respects_collect eq). intros c. apply load_root_pure. }
  apply bind_Ok in Hrun as (linestring & w1 & Hline & Hrun).
  apply lift_Ok in Hline as [_ ->].
  apply bind_Ok in Hrun as (new & w2 & Hseg & Hrun).
  apply segmentize_linestring_grows in Hseg.
  apply set_coordinates_Ok in Hrun as (ty' & Hh').
  intros l o Hne Hl. rewrite Hh', list_lookup_insert_ne by done.
  by apply (grows_heap_sub w w2).
Qed.


End Segmentation.

Section SinglePoint.
Context `{Libraries}.
Import ShapefileToH3Converter.

Lemma read_list_Some (h : list obj) (l : loc) (items : list loc) :
  read_list h l = Some items -> h !! l = Some (OList items).
Proof.
  unfold read_list. destruct (h !! l) as [[ |items'| | | ]|]; try discriminate.
  intros Heq. by inversion Heq.
Qed.



End SinglePoint.



(** C2. On the short road the model that was passed in denotes the
    segmentized road after the call, four points where it had two: the copy
    is shallow and the assignment reaches the geometry both models share. *)
Theorem segmentize_geojson_data_changes_its_input :
  let L := Reference.only Reference.short_road in
  let w0 := snd (Reference.ingested Reference.short_road) in
  let r := @ShapefileToH3Converter.segmentize_geojson_data L 6%nat w0 in
  fst (Reference.ingested Reference.short_road) = Ok 6%nat /\
  read_model (heap w0) 6%nat = Some Reference.short_road /\
  fst r = Ok 7%nat /\
  read_model (heap (snd r)) 7%nat = Some Reference.short_road_segmentized /\
  read_model (heap (snd r)) 6%nat = Some Reference.short_road_segmentized /\
  length (flat_coordinates Reference.short_road) = 2%nat /\
  length (flat_coordinates Reference.short_road_segmentized) = 4%nat.
Proof. repeat split; vm_compute; reflexivity. Qed.

Lemma segmentize_geojson_data_shares_features_witness :
  let L := Reference.only Reference.short_road in
  let w0 := snd (Reference.ingested Reference.short_road) in
  let r := @ShapefileToH3Converter.segmentize_geojson_data L 6%nat w0 in
  7%nat = length (heap w0) /\
  heap w0 !! 7%nat = None /\
  read_model (heap (snd r)) 7%nat = read_model (heap (snd r)) 6%nat.
Proof.
  intros L w0 r.
  apply (@segmentize_geojson_data_shares_features L 6%nat 7%nat w0 (snd r)).
  vm_compute. reflexivity.
Defined.

(** Extraction completeness: on a model that denotes a document,
    [_extract_coordinates] returns, it leaves the model as it was, and the
    list it returns holds the coordinates of the document, feature by feature
    and point by point, as many as the features have points together. *)
Theorem extraction_is_complete `{Libraries} (w : world) (data : loc)
    (document : GeoJsonModel) :
  read_model (heap w) data = Some document ->
  exists l w',
    ShapefileToH3Converter._extract_coordinates data w = (Ok l, w') /\
    read_model (heap w') data = Some document /\
    read_coordinates (heap w') l = Some (flat_coordinates document) /\
    length (flat_coordinates document)
      = foldr (fun f n => (length (coordinates (geometry f)) + n)%nat) 0%nat
          (features document).
Proof.
  intros Hread.
  destruct (extract_coordinates_spec w data document Hread) as (w' & Hrun & Hg & Hcs).
  exists (length (heap w)), w'. split; [exact Hrun|]. split; [|split; [exact Hcs|]].
  - apply (read_model_sub (heap w)); [by apply grows_heap_sub|exact Hread].
  - unfold flat_coordinates. induction (features document) as [|f fs IH]; [reflexivity|].
    cbn [map concat foldr]. by rewrite length_app, IH.
Qed.

Lemma extraction_is_complete_witness :
  exists l w',
    @ShapefileToH3Converter._extract_coordinates
      (Reference.only Reference.short_road) 6%nat
      (snd (Reference.ingested Reference.short_road)) = (Ok l, w') /\
    read_model (heap w') 6%nat = Some Reference.short_road /\
    read_coordinates (heap w') l = Some (flat_coordinates Reference.short_road) /\
    length (flat_coordinates Reference.short_road)
      = foldr (fun f n => (length (coordinates (geometry f)) + n)%nat) 0%nat
          (features Reference.short_road).
Proof.
  apply (@extraction_is_complete (Reference.only Reference.short_road)
           (snd (Reference.ingested Reference.short_road)) 6%nat Reference.short_road).
  vm_compute. reflexivity.
Defined.

(** * Further properties of the code *)

(** ** What the validated models accept *)

(** [InputParams] accepts exactly a resolution from 0 to 15 with four
    paths that are not empty, and keeps the five arguments as given. *)
Theorem InputParams_new_accepts_exactly (shp geojson segmentized : string)
    (resolution : Z) (hexagons : string) (p : InputParams.t) :
  InputParams.new shp geojson segmentized resolution hexagons = Ok p <->
  0 <= resolution <= 15 /\ shp <> "" /\ geojson <> "" /\ segmentized <> "" /\
    hexagons <> "" /\
  p = {| InputParams.shapefile_filepath := shp;
         InputParams.output_filepath_geojson := geojson;
         InputParams.output_filepath_geojson_segmentized := segmentized;
         InputParams.h3_resolution := resolution;
         InputParams.output_filepath_h3_hexagons := hexagons |}.
Proof.
  split.
  - intros Hnew.
    destruct (decide (0 <= resolution <= 15)) as [Hres|Hres];
      [destruct (path_empty_dec shp) as [Ha|Ha];
       [|destruct (path_empty_dec geojson) as [Hb|Hb];
         [|destruct (path_empty_dec segmentized) as [Hc|Hc];
           [|destruct (path_empty_dec hexagons) as [Hd|Hd]]]]|].
    + rewrite InputParams_new_invalid in Hnew by tauto. discriminate.
    + rewrite InputParams_new_invalid in Hnew by tauto. discriminate.
    + rewrite InputParams_new_invalid in Hnew by tauto. discriminate.
    + rewrite InputParams_new_invalid in Hnew by tauto. discriminate.
    + rewrite InputParams_new_valid in Hnew by assumption.
      inversion Hnew. tauto.
    + rewrite InputParams_new_invalid in Hnew by lia. discriminate.
  - intros (Hres & Ha & Hb & Hc & Hd & ->). by apply InputParams_new_valid.
Qed.

(** A [Coordinate] is accepted exactly when it has two components,
    whatever their values, and keeps them as given. *)
Lemma Coordinate_new_iff (xs : list float) (c : Coordinate.t) :
  Coordinate.new xs = Ok c <-> length xs = 2%nat /\ c = {| Coordinate.root := xs |}.
Proof.
  split.
  - intros Hnew. destruct (decide (length xs = 2%nat)) as [Hlen|Hlen].
    + rewrite (Coordinate_new_Ok _ Hlen) in Hnew. by inversion Hnew.
    + rewrite (Coordinate_new_Raise _ Hlen) in Hnew. discriminate.
  - intros [Hlen ->]. by apply Coordinate_new_Ok.
Qed.

(** ** The writers *)

Section WriterProperties.
Context `{Libraries} `{!Builtins}.

Lemma world_eta (w : world) :
  {| heap := heap w; files := files w; trace := trace w |} = w.
Proof. by destruct w. Qed.

Lemma write_hexagon_rows_run (filepath : string) (hexagons : list string) :
  forall (i : nat) (w : world) (written : list Json),
  files w !! filepath = Some written ->
  write_hexagon_rows filepath hexagons i w
  = (Ok tt,
     {| heap := heap w;
        files := <[filepath :=
                     written ++ imap (fun k h => text (hexagon_row (i + k) h)) hexagons]>
                   (files w);
        trace := trace w |}).
Proof.
  induction hexagons as [|h rest IH]; intros i w written Hfile.
  - cbn [write_hexagon_rows imap]. rewrite app_nil_r, insert_id by done.
    by rewrite world_eta.
  - cbn [write_hexagon_rows]. erewrite bind_run; [|reflexivity].
    erewrite IH; [|cbn [files]; apply lookup_insert_eq].
    cbn [heap files trace]. rewrite Hfile, insert_insert_eq. cbn [default].
    rewrite imap_cons, <- app_assoc. cbn [app]. rewrite Nat.add_0_r.
    do 5 f_equal. apply imap_ext. intros k x _. cbn. do 2 f_equal. lia.
Qed.

(** What [write_h3_hexagons_to_file] does on a path that opens. *)
Lemma write_h3_hexagons_to_file_run (self : ShapefileToH3Converter.t)
    (filepath : string) (w : world) :
  writable filepath = true ->
  write_h3_hexagons_to_file self filepath w
  = (Ok tt,
     {| heap := heap w;
        files := <[filepath := hexagons_csv (ShapefileToH3Converter._h3_hexagons self)]>
                   (files w);
        trace := trace w ++ [IoWrite filepath] |}).
Proof.
  intros Hopen. unfold write_h3_hexagons_to_file.
  erewrite bind_run; [|unfold open_w; rewrite Hopen; reflexivity].
  erewrite bind_run; [|reflexivity].
  erewrite write_hexagon_rows_run; [|cbn [files]; apply lookup_insert_eq].
  cbn [heap files trace]. rewrite lookup_insert_eq, !insert_insert_eq. reflexivity.
Qed.

Lemma open_w_refused (filepath : string) (w : world) :
  writable filepath = false ->
  open_w filepath w
  = (Raise OSError,
     {| heap := heap w; files := files w; trace := trace w ++ [IoWrite filepath] |}).
Proof. intros Hopen. unfold open_w. by rewrite Hopen. Qed.

(** The hexagon file: the header, then one row per cell in list order,
    numbered from 0; what the file held before is gone, every other file
    and the heap are as they were, and the one I/O event is the opening of
    the file. *)
Theorem write_h3_hexagons_to_file_writes_numbered_rows
    (self : ShapefileToH3Converter.t) (filepath : string) (w : world) :
  writable filepath = true ->
  exists w',
    write_h3_hexagons_to_file self filepath w = (Ok tt, w') /\
    heap w' = heap w /\
    trace w' = trace w ++ [IoWrite filepath] /\
    files w' !! filepath
      = Some (text h3_hexagons_header
                :: imap (fun i h => text (pretty i +:+ "," +:+ h +:+ newline))
                     (h3_hexagons_property self)) /\
    forall other, other <> filepath -> files w' !! other = files w !! other.
Proof.
  intros Hopen. eexists. split; [by apply write_h3_hexagons_to_file_run|].
  cbn [heap files trace]. split; [done|]. split; [done|]. split.
  - by rewrite lookup_insert_eq.
  - intros other Hne. by rewrite lookup_insert_ne.
Qed.






End WriterProperties.

Section CoordinateWriter.
Context `{Libraries} `{!Builtins}.

Lemma index_Some {A} (xs : list A) (i : nat) (x : A) :
  xs !! i = Some x -> index xs i = Ok x.
Proof. intros Hx. unfold index. by rewrite Hx. Qed.

Lemma write_coordinate_rows_run (filepath : string) (decimals : Z)
    (items : list loc) (cs : list Coordinate.t) :
  forall (i : nat) (w : world) (written : list Json),
  Forall2 (fun l c => read_coordinate (heap w) l = Some c) items cs ->
  Forall (fun c => (2 <= length (Coordinate.root c))%nat) cs ->
  files w !! filepath = Some written ->
  write_coordinate_rows filepath items decimals i w
  = (Ok tt,
     {| heap := heap w;
        files := <[filepath :=
                     written ++ imap (fun k c =>
                       text (coordinate_row (i + k) (latitude c) (longitude c) decimals))
                       cs]> (files w);
        trace := trace w |}).
Proof.
  revert cs. induction items as [|l items IH]; intros cs i w written Hread Hlen Hfile.
  - apply Forall2_nil_inv_l in Hread as ->.
    cbn [write_coordinate_rows imap]. rewrite app_nil_r, insert_id by done.
    by rewrite world_eta.
  - apply Forall2_cons_inv_l in Hread as (c & cs' & Hc & Hrest & ->).
    apply Forall_cons in Hlen as [Hc2 Hlen].
    destruct (Coordinate.root c !! 1%nat) as [lat|] eqn:Hlat.
    2:{ apply lookup_ge_None in Hlat. lia. }
    destruct (Coordinate.root c !! 0%nat) as [lng|] eqn:Hlng.
    2:{ apply lookup_ge_None in Hlng. lia. }
    cbn [write_coordinate_rows].
    rewrite (bind_run _ _ _ _ _ (load_root_run _ _ _ Hc)).
    erewrite bind_run; [|unfold lift; by rewrite (index_Some _ _ _ Hlat)].
    erewrite bind_run; [|unfold lift; by rewrite (index_Some _ _ _ Hlng)].
    erewrite bind_run; [|reflexivity].
    erewrite IH; [|exact Hrest|exact Hlen|cbn [files]; apply lookup_insert_eq].
    cbn [heap files trace]. rewrite Hfile, insert_insert_eq. cbn [default].
    rewrite imap_cons, <- app_assoc. cbn [app]. rewrite Nat.add_0_r.
    unfold latitude at 2, longitude at 2. rewrite Hlat, Hlng. cbn [default].
    do 5 f_equal. apply imap_ext. intros k x _. cbn. do 2 f_equal. lia.
Qed.

Lemma write_coordinates_to_file_run (coordinates : loc) (filepath : string)
    (decimals : Z) (cs : list Coordinate.t) (w : world) :
  read_coordinates (heap w) coordinates = Some cs ->
  Forall (fun c => (2 <= length (Coordinate.root c))%nat) cs ->
  writable filepath = true ->
  write_coordinates_to_file coordinates filepath decimals w
  = (Ok tt,
     {| heap := heap w;
        files := <[filepath := coordinates_csv cs decimals]> (files w);
        trace := trace w ++ [IoWrite filepath] |}).
Proof.
  intros Hread Hlen Hopen.
  apply read_coordinates_inv in Hread as (items & Hitems & Hall).
  unfold write_coordinates_to_file.
  erewrite bind_run; [|unfold open_w; rewrite Hopen; reflexivity].
  erewrite bind_run; [|reflexivity].
  erewrite bind_run; [|by apply load_list_run].
  erewrite write_coordinate_rows_run;
    [|exact Hall|exact Hlen|cbn [files]; apply lookup_insert_eq].
  cbn [heap files trace]. rewrite lookup_insert_eq, !insert_insert_eq. reflexivity.
Qed.

(** The coordinate file: the header, then one row per coordinate in list
    order, numbered from 0, with the rounded latitude [root[1]] before the
    rounded longitude [root[0]]; an empty list leaves the header alone.  The
    heap and every other file are as they were. *)
Theorem write_coordinates_to_file_writes_latitude_first (coordinates : loc)
    (filepath : string) (decimals : Z) (pairs : list (float * float)) (w : world) :
  read_coordinates (heap w) coordinates
    = Some (map (fun '(lng, lat) => {| Coordinate.root := [lng; lat] |}) pairs) ->
  writable filepath = true ->
  exists w',
    write_coordinates_to_file coordinates filepath decimals w = (Ok tt, w') /\
    heap w' = heap w /\
    trace w' = trace w ++ [IoWrite filepath] /\
    files w' !! filepath
      = Some (text coordinates_header
                :: imap (fun i '(lng, lat) =>
                     text (pretty i +:+ "," +:+ format_float (round lat decimals)
                             +:+ "," +:+ format_float (round lng decimals)
                             +:+ newline)) pairs) /\
    forall other, other <> filepath -> files w' !! other = files w !! other.
Proof.
  intros Hread Hopen. eexists. split.
  - apply (write_coordinates_to_file_run _ _ _ _ _ Hread); [|exact Hopen].
    apply Forall_forall. intros c Hc. apply list_elem_of_fmap in Hc as ([lng lat] & -> & _).
    cbn. lia.
  - cbn [heap files trace]. split; [done|]. split; [done|]. split.
    + rewrite lookup_insert_eq. unfold coordinates_csv. do 2 f_equal.
      rewrite imap_fmap. apply imap_ext. intros k [lng lat] _. reflexivity.
    + intros other Hne. by rewrite lookup_insert_ne.
Qed.

(** On a path that does not open both writers raise [OSError] after the
    attempt, and no file is changed. *)
Theorem writers_refuse_unwritable_path (self : ShapefileToH3Converter.t)
    (coordinates : loc) (decimals : Z) (filepath : string) (w : world) :
  writable filepath = false ->
  let refused := {| heap := heap w; files := files w;
                    trace := trace w ++ [IoWrite filepath] |} in
  write_h3_hexagons_to_file self filepath w = (Raise OSError, refused) /\
  write_coordinates_to_file coordinates filepath decimals w = (Raise OSError, refused).
Proof.
  intros Hopen refused. split.
  - unfold write_h3_hexagons_to_file.
    by rewrite (bind_raise _ _ _ _ _ (open_w_refused _ _ Hopen)).
  - unfold write_coordinates_to_file.
    by rewrite (bind_raise _ _ _ _ _ (open_w_refused _ _ Hopen)).
Qed.

End CoordinateWriter.

(** ** Segmentization, object by object and as a function of the document *)

Section Refinement.
Context `{Libraries}.
Import ShapefileToH3Converter.

Lemma mapR_cons {A B} (f : A -> result B) (x : A) (rest : list A) :
  mapR f (x :: rest)
  = match f x with
    | Ok y => match mapR f rest with
              | Ok ys => Ok (y :: ys)
              | Raise e => Raise e
              end
    | Raise e => Raise e
    end.
Proof. cbn [mapR]. destruct (f x); reflexivity. Qed.

Lemma mapR_Forall2 {A B} (f : A -> result B) (xs : list A) (ys : list B) :
  mapR f xs = Ok ys <-> Forall2 (fun x y => f x = Ok y) xs ys.
Proof.
  revert ys. induction xs as [|x xs IH]; intros ys.
  - cbn. split.
    + intros Heq. inversion Heq. constructor.
    + intros Hall. by apply Forall2_nil_inv_l in Hall as ->.
  - rewrite mapR_cons. split.
    + destruct (f x) as [y|e] eqn:Hx; [|discriminate].
      destruct (mapR f xs) as [ys'|e]; [|discriminate].
      intros Heq. inversion Heq; subst. constructor; [done|]. by apply IH.
    + intros Hall. apply Forall2_cons_inv_l in Hall as (y & ys' & Hx & Hrest & ->).
      rewrite Hx. apply IH in Hrest. by rewrite Hrest.
Qed.

(** The inner loop of [segmentize_linestring]. *)
Lemma collect_new_coordinates_run (points : list (list float)) :
  forall w : world,
  match mapR Coordinate.new points with
  | Ok cs =>
      exists ls w',
        collect points (fun point => c ← lift (Coordinate.new point); new_coordinate c) w
          = (Ok ls, w') /\
        grows w w' /\
        Forall2 (fun l c => read_coordinate (heap w') l = Some c) ls cs
  | Raise e =>
      exists w',
        collect points (fun point => c ← lift (Coordinate.new point); new_coordinate c) w
          = (Raise e, w') /\
        grows w w'
  end.
Proof.
  induction points as [|point rest IH]; intros w.
  - cbn. exists [], w. split; [reflexivity|]. split; [reflexivity|constructor].
  - rewrite mapR_cons. cbn [collect].
    destruct (Coordinate.new point) as [c|e] eqn:Hc.
    + destruct (new_coordinate_spec c w) as (l & w1 & Hl & Hg1 & Hread).
      assert ((c0 ← lift (Ok c); new_coordinate c0) w = (Ok l, w1)) as Hbody.
      { erewrite bind_run; [exact Hl|reflexivity]. }
      specialize (IH w1). destruct (mapR Coordinate.new rest) as [cs|e].
      * destruct IH as (ls & w' & Hrest & Hg2 & Hall).
        exists (l :: ls), w'. split; [|split].
        -- rewrite (bind_run _ _ _ _ _ Hbody), (bind_run _ _ _ _ _ Hrest). reflexivity.
        -- by etrans.
        -- constructor; [|exact Hall].
           eapply read_coordinate_sub_ng; [|exact Hread].
           by apply heap_sub_weaken, grows_heap_sub.
      * destruct IH as (w' & Hrest & Hg2). exists w'. split; [|by etrans].
        rewrite (bind_run _ _ _ _ _ Hbody). by apply bind_raise.
    + exists w. split; [|reflexivity].
      apply bind_raise. by apply bind_raise.
Qed.

Lemma segmentize_linestring_run (linestring : shapely.LineString) (m : float)
    (w : world) :
  match segmentize linestring m with
  | Ok g =>
      match mapR Coordinate.new (shapely.coords g) with
      | Ok cs =>
          exists w',
            segmentize_linestring linestring m w = (Ok (length (heap w')  - 1)%nat, w') /\
            grows w w' /\
            (length (heap w) < length (heap w'))%nat /\
            read_coordinates (heap w') (length (heap w') - 1)%nat = Some cs
      | Raise e =>
          exists w', segmentize_linestring linestring m w = (Raise e, w') /\ grows w w'
      end
  | Raise e => segmentize_linestring linestring m w = (Raise e, w)
  end.
Proof.
  unfold segmentize_linestring, GeoSeries_segmentize. cbn [mapR].
  destruct (segmentize linestring m) as [g|e] eqn:Hseg.
  - cbn [mbind result_bind]. erewrite bind_run; [|reflexivity].
    cbn [map concat]. rewrite app_nil_r.
    pose proof (collect_new_coordinates_run (shapely.coords g) w) as Hrun.
    destruct (mapR Coordinate.new (shapely.coords g)) as [cs|e].
    + destruct Hrun as (ls & w1 & Hrun & Hg1 & Hall).
      destruct (alloc_spec (OList ls) w1) as (w' & Halloc & Hg2 & Hh & Hnew).
      assert ((length (heap w') - 1)%nat = length (heap w1)) as Hlast.
      { rewrite Hh, length_app. cbn. lia. }
      exists w'. rewrite Hlast. split; [|split; [|split]].
      * rewrite (bind_run _ _ _ _ _ Hrun). exact Halloc.
      * by etrans.
      * destruct Hg1 as ([ext Hext] & _). rewrite Hh, Hext, !length_app. cbn. lia.
      * apply read_coordinates_inv. exists ls. split.
        -- unfold read_list. by rewrite Hnew.
        -- eapply Forall2_impl; [exact Hall|]. intros l c.
           by apply read_coordinate_sub_ng, heap_sub_weaken, grows_heap_sub.
    + destruct Hrun as (w' & Hrun & Hg). exists w'. split; [|exact Hg].
      by apply bind_raise.
  - cbn [mbind result_bind]. by apply bind_raise.
Qed.


End Refinement.

Section DocumentRefinement.
Context `{Libraries}.
Import ShapefileToH3Converter.

Lemma insert_geometry_sub_ng (h : list obj) (g : loc) (ty ty' : FeatureGeometryType.t)
    (c c' : loc) :
  h !! g = Some (OGeometry ty c) -> heap_sub_ng h (<[g := OGeometry ty' c']> h).
Proof.
  intros Hg l o Hl Hng. destruct (decide (l = g)) as [Heq|Hne]; [subst l|].
  - rewrite Hg in Hl. inversion Hl; subst. discriminate.
  - by rewrite list_lookup_insert_ne.
Qed.

Lemma segmentize_points_unfold (points : list (list float)) :
  segmentize_points points
  = match shapely.new points with
    | Ok linestring =>
        match segmentize linestring default_max_segment_length with
        | Ok g => mapR Coordinate.new (shapely.coords g)
        | Raise e => Raise e
        end
    | Raise e => Raise e
    end.
Proof.
  unfold segmentize_points, GeoSeries_segmentize.
  destruct (shapely.new points) as [linestring|e]; [|reflexivity].
  cbn [mbind result_bind mapR].
  destruct (segmentize linestring default_max_segment_length); [|reflexivity].
  cbn [mbind result_bind map concat]. by rewrite app_nil_r.
Qed.

(** The body of the loop on a feature whose geometry denotes [cs]. *)
Lemma segmentize_feature_run (feature : loc) (w : world) (i t : string)
    (p : Properties) (g : loc) (ty : FeatureGeometryType.t) (cl : loc)
    (cs : list Coordinate.t) :
  heap w !! feature = Some (OFeature i t p g) ->
  heap w !! g = Some (OGeometry ty cl) ->
  read_coordinates (heap w) cl = Some cs ->
  match segmentize_geometry {| geometry_type := ty; coordinates := cs |} with
  | Ok g' =>
      exists w', segmentize_feature feature w = (Ok tt, w') /\
                 read_geometry (heap w') g = Some g'
  | Raise e => exists w', segmentize_feature feature w = (Raise e, w')
  end.
Proof.
  intros Hf Hg Hcs. apply read_coordinates_inv in Hcs as (items & Hitems & Hall).
  unfold segmentize_feature.
  erewrite bind_run; [|by eapply load_feature_geometry_run].
  erewrite bind_run; [|by eapply load_geometry_run].
  unfold segmentize_geometry. cbn [geometry_type coordinates].
  destruct ty. cbn [FeatureGeometryType.eqb].
  erewrite bind_run; [|by apply load_list_run].
  assert (collect items load_root w = (Ok (map Coordinate.root cs), w)) as Hroots.
  { apply collect_pure_run, Forall2_fmap_r. eapply Forall2_impl; [exact Hall|].
    intros l c Hc. by apply load_root_run. }
  rewrite (bind_run _ _ _ _ _ Hroots).
  rewrite segmentize_points_unfold.
  destruct (shapely.new (map Coordinate.root cs)) as [linestring|e] eqn:Hline.
  - erewrite bind_run; [|reflexivity].
    pose proof (segmentize_linestring_run linestring default_max_segment_length w)
      as Hrun.
    destruct (segmentize linestring default_max_segment_length) as [g1|e].
    + destruct (mapR Coordinate.new (shapely.coords g1)) as [cs'|e].
      * destruct Hrun as (w2 & Hrun & Hg2 & Hlen & Hread). cbn [mbind result_bind].
        pose proof (grows_heap_sub _ _ Hg2 _ _ Hg) as Hg'.
        exists (set_heap (<[g := OGeometry FeatureGeometryType.LineString
                                   (length (heap w2) - 1)%nat]> (heap w2)) w2).
        split.
        -- rewrite (bind_run _ _ _ _ _ Hrun). unfold set_coordinates.
           by rewrite (bind_run _ _ _ _ _ (load_run _ _ _ Hg')).
        -- apply read_geometry_inv. cbn [geometry_type coordinates].
           exists (length (heap w2) - 1)%nat. unfold set_heap. simpl. split.
           ++ apply list_lookup_insert_eq. by eapply lookup_lt_Some.
           ++ eapply read_coordinates_sub_ng; [|exact Hread].
              by eapply insert_geometry_sub_ng.
      * destruct Hrun as (w' & Hrun & _). exists w'. by apply bind_raise.
    + exists w. by apply bind_raise.
  - exists w. by apply bind_raise.
Qed.

Lemma read_feature_keeps (gs : list loc) (w w' : world) (l : loc) (i t : string)
    (p : Properties) (g : loc) (f : Feature) :
  keeps_except gs w w' ->
  heap w !! l = Some (OFeature i t p g) ->
  g ∉ gs ->
  read_feature (heap w) l = Some f ->
  read_feature (heap w') l = Some f.
Proof.
  intros [(Hng & _) Hkeep] Hl Hg Hread.
  apply read_feature_inv in Hread as (g1 & Hl1 & Hgeo).
  assert (g1 = g) as -> by congruence.
  apply read_geometry_inv in Hgeo as (c & Hgobj & Hcs).
  apply read_feature_inv. exists g. split; [by apply Hng|].
  apply read_geometry_inv. exists c. split; [by apply Hkeep|].
  by apply (read_coordinates_sub_ng (heap w)).
Qed.

Lemma segmentize_feature_keeps (feature : loc) (w w' : world) (u : unit)
    (i t : string) (p : Properties) (g : loc) :
  heap w !! feature = Some (OFeature i t p g) ->
  segmentize_feature feature w = (Ok u, w') ->
  keeps_except [g] w w'.
Proof.
  intros Hf Hrun. split; [by eapply segmentize_feature_frame|].
  destruct (segmentize_feature_Ok _ _ _ _ Hrun)
    as (i' & t' & p' & g' & ty & cl & Hf' & _ & Hkeep).
  assert (g' = g) as -> by congruence.
  intros l o Hl. apply Hkeep. intros ->. apply Hl. by apply list_elem_of_singleton.
Qed.

Lemma keeps_except_trans (g : loc) (gs : list loc) (w w1 w' : world) :
  keeps_except [g] w w1 -> keeps_except gs w1 w' -> keeps_except (g :: gs) w w'.
Proof.
  intros [Hf1 Hk1] [Hf2 Hk2]. split; [by etrans|].
  intros l o Hl Hlook. apply Hk2.
  - intros Hin. apply Hl. by apply elem_of_cons; right.
  - apply Hk1; [|exact Hlook]. intros Hin. apply Hl.
    apply list_elem_of_singleton in Hin as ->. by apply elem_of_cons; left.
Qed.

(** The loop of [segmentize_geojson_data] over features with geometry
    objects of their own. *)
Lemma for_each_segmentize_run (items : list loc) :
  forall (gs : list loc) (fs : list Feature) (w : world),
  Forall2 (fun l g => exists i ft p, heap w !! l = Some (OFeature i ft p g)) items gs ->
  NoDup gs ->
  Forall2 (fun l f => read_feature (heap w) l = Some f) items fs ->
  match mapR segmentize_feature_of fs with
  | Ok fs' =>
      exists w',
        for_each items segmentize_feature w = (Ok tt, w') /\
        keeps_except gs w w' /\
        Forall2 (fun l f => read_feature (heap w') l = Some f) items fs'
  | Raise e =>
      exists w', for_each items segmentize_feature w = (Raise e, w') /\ frame w w'
  end.
Proof.
  induction items as [|l0 items IH]; intros gs fs w Hgs Hdup Hfs.
  - apply Forall2_nil_inv_l in Hfs as ->. cbn.
    exists w. split; [reflexivity|]. split; [|constructor].
    split; [reflexivity|auto].
  - apply Forall2_cons_inv_l in Hgs as (g0 & gs' & (i0 & ft0 & p0 & Hl0) & Hgs & ->).
    apply Forall2_cons_inv_l in Hfs as (f0 & fs' & Hf0 & Hfs & ->).
    apply NoDup_cons in Hdup as [Hfresh Hdup].
    pose proof Hf0 as Hread0.
    apply read_feature_inv in Hread0 as (g & Hl0' & Hgeo).
    assert (g = g0) as -> by congruence.
    apply read_geometry_inv in Hgeo as (cl & Hg0 & Hcs).
    pose proof (segmentize_feature_run _ _ _ _ _ _ _ _ _ Hl0 Hg0 Hcs) as Hrun.
    rewrite mapR_cons. unfold segmentize_feature_of at 1.
    assert ({| geometry_type := geometry_type (geometry f0);
               coordinates := coordinates (geometry f0) |} = geometry f0) as Heta
      by (by destruct (geometry f0)).
    rewrite Heta in Hrun. cbn [for_each].
    destruct (segmentize_geometry (geometry f0)) as [g0'|e].
    + destruct Hrun as (w1 & Hrun & Hgeo1). cbn [mbind result_bind].
      pose proof (segmentize_feature_keeps _ _ _ _ _ _ _ _ Hl0 Hrun) as Hkeep1.
      assert (Forall2 (fun l g => exists i ft p, heap w1 !! l = Some (OFeature i ft p g))
                items gs') as Hgs1.
      { eapply Forall2_impl; [exact Hgs|]. intros l g' (i & ft & p & Hl).
        exists i, ft, p. destruct Hkeep1 as [(Hng & _) _]. by apply Hng. }
      assert (Forall2 (fun l f => read_feature (heap w1) l = Some f) items fs') as Hfs1.
      { apply Forall2_same_length_lookup_2; [by eapply Forall2_length|].
        intros k l f Hk Hf.
        destruct (Forall2_lookup_l _ _ _ _ _ Hgs Hk) as (g' & Hg' & i & ft & p & Hl).
        eapply (read_feature_keeps [g0]); [exact Hkeep1|exact Hl| |].
        - intros Hin. apply list_elem_of_singleton in Hin as ->.
          apply Hfresh. by eapply list_elem_of_lookup_2.
        - exact (Forall2_lookup_lr _ _ _ _ _ _ Hfs Hk Hf). }
      specialize (IH gs' fs' w1 Hgs1 Hdup Hfs1).
      destruct (mapR segmentize_feature_of fs') as [fs''|e].
      * destruct IH as (w' & Hrest & Hkeep & Hread).
        exists w'. split; [|split].
        -- by rewrite (bind_run _ _ _ _ _ Hrun).
        -- by eapply keeps_except_trans.
        -- constructor; [|exact Hread].
           eapply (read_feature_keeps gs' w1); [exact Hkeep| |exact Hfresh|].
           ++ destruct Hkeep1 as [(Hng & _) _]. by apply Hng.
           ++ apply read_feature_inv. exists g0. cbn. split; [|exact Hgeo1].
              destruct Hkeep1 as [(Hng & _) _].
              assert (heap w !! l0
                      = Some (OFeature (id f0) (feature_type f0) (properties f0) g0))
                as Hobj by congruence.
              by apply Hng.
      * destruct IH as (w' & Hrest & Hframe). exists w'. split.
        -- by rewrite (bind_run _ _ _ _ _ Hrun).
        -- etrans; [|exact Hframe]. by destruct Hkeep1.
    + destruct Hrun as (w' & Hrun). exists w'. split; [by apply bind_raise|].
      by eapply segmentize_feature_frame.
Qed.

End DocumentRefinement.

Section CollectionRefinement.
Context `{Libraries}.
Import ShapefileToH3Converter.

Lemma separate_geometries_sub (h h' : list obj) (data : loc) :
  heap_sub h h' -> separate_geometries h data -> separate_geometries h' data.
Proof.
  intros Hsub (t & fl & c & items & gs & Hdata & Hfl & Hgs & Hdup).
  exists t, fl, c, items, gs. split; [by apply Hsub|]. split; [by apply Hsub|].
  split; [|exact Hdup]. eapply Forall2_impl; [exact Hgs|].
  intros l g (i & ft & p & Hl). exists i, ft, p. by apply Hsub.
Qed.

(** [segmentize_geojson_data] on a model whose features have geometry
    objects of their own. *)
Lemma segmentize_geojson_data_run (w : world) (data : loc) (document : GeoJsonModel) :
  read_model (heap w) data = Some document ->
  separate_geometries (heap w) data ->
  match segmentize_document document with
  | Ok document' =>
      exists w',
        segmentize_geojson_data data w = (Ok (length (heap w)), w') /\
        frame w w' /\
        read_model (heap w') (length (heap w)) = Some document' /\
        read_model (heap w') data = Some document'
  | Raise e =>
      exists w', segmentize_geojson_data data w = (Raise e, w') /\ frame w w'
  end.
Proof.
  intros Hread (t & fl' & c & items' & gs & Hdata' & Hfl' & Hgs & Hdup).
  apply read_model_inv in Hread as (fl & items & Hdata & Hfl & Hfs).
  apply read_list_Some in Hfl.
  assert (fl' = fl) as -> by congruence.
  assert (items' = items) as -> by congruence.
  destruct (alloc_spec (OGeoJsonModel (type document) fl (crs document)) w)
    as (w1 & Halloc & Hg1 & _ & Hcopy).
  pose proof (grows_heap_sub _ _ Hg1) as Hsub.
  assert (model_copy data w = (Ok (length (heap w)), w1)) as Hrun.
  { unfold model_copy. by rewrite (bind_run _ _ _ _ _ (load_run _ _ _ Hdata)). }
  assert (forall k : unit -> M loc,
            (fl0 ← load_features (length (heap w)); fs ← load_list fl0;
             for_each fs segmentize_feature ≫= k) w1
            = (for_each items segmentize_feature ≫= k) w1) as Hloads.
  { intros k. erewrite bind_run; [|by eapply load_features_run].
    erewrite bind_run; [reflexivity|].
    apply load_list_run. unfold read_list. by rewrite (Hsub _ _ Hfl). }
  pose proof (for_each_segmentize_run items gs (features document) w1) as Hloop.
  unfold segmentize_document, segmentize_geojson_data.
  rewrite (bind_run _ _ _ _ _ Hrun), Hloads.
  destruct (mapR segmentize_feature_of (features document)) as [fs'|e].
  - destruct Hloop as (w' & Hloop & [Hframe _] & Hread').
    + eapply Forall2_impl; [exact Hgs|]. intros l g (i & ft & p & Hl).
      exists i, ft, p. by apply Hsub.
    + exact Hdup.
    + eapply Forall2_impl; [exact Hfs|]. intros l f. by apply read_feature_sub.
    + cbn [mbind result_bind]. exists w'.
      destruct Hframe as (Hng & Hframe').
      split; [by rewrite (bind_run _ _ _ _ _ Hloop)|]. split; [|split].
      * etrans; [by apply grows_frame|]. by split.
      * apply read_model_inv. exists fl, items. cbn [type features crs].
        split; [by apply Hng|]. split; [|exact Hread'].
        unfold read_list. by rewrite (Hng _ _ (Hsub _ _ Hfl) eq_refl).
      * apply read_model_inv. exists fl, items. cbn [type features crs].
        split; [apply Hng; [by apply Hsub|done]|]. split; [|exact Hread'].
        unfold read_list. by rewrite (Hng _ _ (Hsub _ _ Hfl) eq_refl).
  - destruct Hloop as (w' & Hloop & Hframe).
    + eapply Forall2_impl; [exact Hgs|]. intros l g (i & ft & p & Hl).
      exists i, ft, p. by apply Hsub.
    + exact Hdup.
    + eapply Forall2_impl; [exact Hfs|]. intros l f. by apply read_feature_sub.
    + cbn [mbind result_bind]. exists w'. split; [by apply bind_raise|].
      etrans; [by apply grows_frame|exact Hframe].
Qed.

(** *** Validation builds geometry objects of their own *)

Lemma alloc_Ok (o : obj) (w w' : world) (l : loc) :
  alloc o w = (Ok l, w') -> l = length (heap w) /\ heap w' = heap w ++ [o].
Proof. unfold alloc. intros Heq. by inversion Heq. Qed.

Lemma new_geometry_bounds (g : Geometry) (w w' : world) (l : loc) :
  new_geometry g w = (Ok l, w') -> (length (heap w) <= l < length (heap w'))%nat.
Proof.
  intros Hrun. unfold new_geometry in Hrun.
  apply bind_Ok in Hrun as (cs & w1 & Hcs & Hrun).
  apply bind_Ok in Hrun as (cl & w2 & Hcl & Hrun).
  assert (grows w w1) as ([ext Hext] & _).
  { revert Hcs. apply (respects_collect grows). intros c. apply new_coordinate_grows. }
  apply alloc_Ok in Hcl as [_ Hh2]. apply alloc_Ok in Hrun as [-> Hh'].
  rewrite Hh', Hh2, Hext, !length_app. cbn. lia.
Qed.

Lemma new_feature_Ok (f : Feature) (w w' : world) (l : loc) :
  new_feature f w = (Ok l, w') ->
  grows w w' /\
  exists g, heap w' !! l = Some (OFeature (id f) (feature_type f) (properties f) g) /\
            (length (heap w) <= g < length (heap w'))%nat.
Proof.
  intros Hrun. split.
  - destruct (new_feature_spec f w) as (l0 & w0 & Hrun0 & Hg & _).
    rewrite Hrun in Hrun0. by inversion Hrun0; subst.
  - unfold new_feature in Hrun. apply bind_Ok in Hrun as (g & w1 & Hgeo & Hrun).
    apply new_geometry_bounds in Hgeo. apply alloc_Ok in Hrun as [-> Hh'].
    exists g. split.
    + rewrite Hh'. by apply list_lookup_middle.
    + rewrite Hh', length_app. cbn. lia.
Qed.

Lemma collect_new_feature_separate (fs : list Feature) :
  forall (w w' : world) (ls : list loc),
  collect fs new_feature w = (Ok ls, w') ->
  grows w w' /\
  exists gs,
    Forall2 (fun l g => exists i ft p, heap w' !! l = Some (OFeature i ft p g)) ls gs /\
    Forall (fun g => (length (heap w) <= g < length (heap w'))%nat) gs /\
    NoDup gs.
Proof.
  induction fs as [|f rest IH]; intros w w' ls Hrun.
  - inversion Hrun; subst. split; [reflexivity|].
    exists []. split; [constructor|]. split; constructor.
  - cbn [collect] in Hrun. apply bind_Ok in Hrun as (l & w1 & Hf & Hrun).
    apply bind_Ok in Hrun as (ls' & w2 & Hrest & Hrun). inversion Hrun; subst. clear Hrun.
    apply new_feature_Ok in Hf as (Hg1 & g & Hl & Hbound).
    apply IH in Hrest as (Hg2 & gs & Hgs & Hbounds & Hdup).
    pose proof Hg1 as ([e1 He1] & _). pose proof Hg2 as ([e2 He2] & _).
    split; [by etrans|]. exists (g :: gs). split; [|split].
    + constructor; [|exact Hgs]. exists (id f), (feature_type f), (properties f).
      by apply (grows_heap_sub _ _ Hg2).
    + constructor.
      * rewrite He2, length_app. lia.
      * eapply Forall_impl; [exact Hbounds|]. intros g' Hg'. cbn in Hg'.
        rewrite He1, length_app in Hg'. lia.
    + constructor; [|exact Hdup]. intros Hin.
      rewrite Forall_forall in Hbounds. apply Hbounds in Hin. lia.
Qed.

Lemma new_model_separate (document : GeoJsonModel) (w w' : world) (data : loc) :
  new_model document w = (Ok data, w') -> separate_geometries (heap w') data.
Proof.
  intros Hrun. unfold new_model in Hrun.
  apply bind_Ok in Hrun as (ls & w1 & Hfs & Hrun).
  apply bind_Ok in Hrun as (fl & w2 & Hfl & Hrun).
  apply collect_new_feature_separate in Hfs as (_ & gs & Hgs & _ & Hdup).
  apply alloc_Ok in Hfl as [-> Hh2]. apply alloc_Ok in Hrun as [-> Hh'].
  exists (type document), (length (heap w1)), (crs document), ls, gs.
  split; [|split; [|split; [|exact Hdup]]].
  - rewrite Hh'. by apply list_lookup_middle.
  - rewrite Hh', Hh2. apply lookup_app_l_Some. by apply list_lookup_middle.
  - eapply Forall2_impl; [exact Hgs|]. intros l g (i & ft & p & Hl).
    exists i, ft, p. rewrite Hh', Hh2. by do 2 apply lookup_app_l_Some.
Qed.

(** *** What segmentization leaves of a document *)

Lemma segmentize_points_pairs (points : list (list float)) (cs : list Coordinate.t) :
  segmentize_points points = Ok cs ->
  Forall (fun c => length (Coordinate.root c) = 2%nat) cs.
Proof.
  rewrite segmentize_points_unfold.
  destruct (shapely.new points) as [linestring|e]; [|discriminate].
  destruct (segmentize linestring default_max_segment_length) as [g|e]; [|discriminate].
  intros Hnew. apply mapR_Forall2 in Hnew.
  apply Forall_forall. intros c Hin. apply list_elem_of_lookup_1 in Hin as [k Hk].
  destruct (Forall2_lookup_r _ _ _ _ _ Hnew Hk) as (point & _ & Hc).
  apply Coordinate_new_iff in Hc as [Hlen ->]. exact Hlen.
Qed.

Lemma segmentize_document_shape (document document' : GeoJsonModel) :
  segmentize_document document = Ok document' ->
  type document' = type document /\
  crs document' = crs document /\
  Forall2 (fun f f' =>
             id f' = id f /\ feature_type f' = feature_type f /\
             properties f' = properties f /\
             geometry_type (geometry f') = geometry_type (geometry f) /\
             Forall (fun c => length (Coordinate.root c) = 2%nat)
               (coordinates (geometry f')))
    (features document) (features document').
Proof.
  unfold segmentize_document.
  destruct (mapR segmentize_feature_of (features document)) as [fs'|e] eqn:Hfs;
    [|discriminate].
  cbn [mbind result_bind]. intros Heq. inversion Heq; subst. cbn [type crs features].
  split; [reflexivity|]. split; [reflexivity|].
  apply mapR_Forall2 in Hfs. eapply Forall2_impl; [exact Hfs|].
  intros f f' Hf. unfold segmentize_feature_of, segmentize_geometry in Hf.
  destruct (geometry_type (geometry f)) eqn:Hty. cbn [FeatureGeometryType.eqb] in Hf.
  destruct (segmentize_points (map Coordinate.root (coordinates (geometry f))))
    as [cs|e] eqn:Hcs; [|discriminate].
  cbn [mbind result_bind] in Hf. inversion Hf; subst. cbn.
  repeat split; try done. by eapply segmentize_points_pairs.
Qed.

Lemma segmentize_document_pairs (document document' : GeoJsonModel) :
  segmentize_document document = Ok document' ->
  Forall (fun c => length (Coordinate.root c) = 2%nat) (flat_coordinates document').
Proof.
  intros Hseg. apply segmentize_document_shape in Hseg as (_ & _ & Hall).
  unfold flat_coordinates. induction Hall as [|f f' fs fs' Hf _ IH]; [constructor|].
  cbn [map concat]. apply Forall_app. split; [|exact IH]. by destruct Hf as (_ & _ & _ & _ & ?).
Qed.

(** Segmentization as a function of the document: on a model whose
    features have geometry objects of their own, as validation builds them,
    [segmentize_geojson_data] returns exactly when every feature segmentizes,
    feature by feature in order, and then both the model it returns and the
    model it was given denote the segmentized document; otherwise it raises
    the exception of the first feature that fails.  It does no file I/O. *)
Theorem segmentize_geojson_data_computes_segmentize_document (w : world) (data : loc)
    (document : GeoJsonModel) :
  read_model (heap w) data = Some document ->
  separate_geometries (heap w) data ->
  exists r w',
    segmentize_geojson_data data w = (r, w') /\
    files w' = files w /\ trace w' = trace w /\
    match segmentize_document document with
    | Ok document' =>
        exists out, r = Ok out /\ heap w !! out = None /\
                    read_model (heap w') out = Some document' /\
                    read_model (heap w') data = Some document'
    | Raise e => r = Raise e
    end.
Proof.
  intros Hread Hsep.
  pose proof (segmentize_geojson_data_run w data document Hread Hsep) as Hrun.
  destruct (segmentize_document document) as [document'|e].
  - destruct Hrun as (w' & Hrun & (_ & _ & Hfiles & Htrace) & Hout & Hin).
    eexists _, w'. split; [exact Hrun|]. split; [exact Hfiles|]. split; [exact Htrace|].
    eexists. split; [reflexivity|]. split; [by apply lookup_ge_None_2|]. done.
  - destruct Hrun as (w' & Hrun & (_ & _ & Hfiles & Htrace)).
    eexists _, w'. done.
Qed.

(** Segmentization changes coordinates only: when [segmentize_geojson_data]
    returns, the document has the type, the reference system and the
    features it had, each with its id, type, properties and geometry type,
    and every coordinate of the result has exactly two components. *)
Theorem segmentize_geojson_data_changes_coordinates_only (w w' : world) (data out : loc)
    (document : GeoJsonModel) :
  read_model (heap w) data = Some document ->
  separate_geometries (heap w) data ->
  segmentize_geojson_data data w = (Ok out, w') ->
  exists document',
    read_model (heap w') out = Some document' /\
    type document' = type document /\
    crs document' = crs document /\
    Forall2 (fun f f' =>
               id f' = id f /\ feature_type f' = feature_type f /\
               properties f' = properties f /\
               geometry_type (geometry f') = geometry_type (geometry f) /\
               Forall (fun c => length (Coordinate.root c) = 2%nat)
                 (coordinates (geometry f')))
      (features document) (features document').
Proof.
  intros Hread Hsep Hrun.
  pose proof (segmentize_geojson_data_run w data document Hread Hsep) as Hspec.
  destruct (segmentize_document document) as [document'|e] eqn:Hseg.
  - destruct Hspec as (w0 & Hrun0 & _ & Hout & _).
    rewrite Hrun in Hrun0. inversion Hrun0; subst.
    exists document'. split; [exact Hout|]. by apply segmentize_document_shape.
  - destruct Hspec as (w0 & Hrun0 & _). rewrite Hrun in Hrun0. discriminate.
Qed.

End CollectionRefinement.

(** ** The constructor, case by case *)

Section ConstructorRuns.
Context `{Libraries}.
Import ShapefileToH3Converter.

Lemma load_coordinates_run (w : world) (l : loc) (cs : list Coordinate.t) :
  read_coordinates (heap w) l = Some cs -> load_coordinates l w = (Ok cs, w).
Proof.
  intros Hread. apply read_coordinates_inv in Hread as (items & Hitems & Hall).
  unfold load_coordinates. erewrite bind_run; [|by apply load_list_run].
  apply collect_pure_run. eapply Forall2_impl; [exact Hall|].
  intros i c Hc. rewrite (bind_run _ _ _ _ _ (load_root_run _ _ _ Hc)). by destruct c.
Qed.

(** Opening a file, dumping a model into it and going on. *)
Lemma write_model_run {B} (path : string) (model : loc) (document : GeoJsonModel)
    (k : M B) (w : world) :
  writable path = true ->
  read_model (heap w) model = Some document ->
  (open_w path;; text ← ShapefileToH3Converter.dump model; f_write path text;; k) w
  = k {| heap := heap w;
         files := <[path := [model_dump_json document]]> (files w);
         trace := trace w ++ [IoWrite path] |}.
Proof.
  intros Hopen Hread.
  erewrite bind_run; [|unfold open_w; rewrite Hopen; reflexivity].
  erewrite bind_run; [|by apply dump_run].
  erewrite bind_run; [|reflexivity].
  cbn [heap files trace]. by rewrite lookup_insert_eq, insert_insert_eq.
Qed.

(** Before the raw file opens nothing is written. *)
Lemma init_early_failure (p : InputParams.t) (w : world) :
  let attempted := trace w ++ [IoRead (InputParams.shapefile_filepath p)] in
  match read_file (InputParams.shapefile_filepath p) with
  | Raise e =>
      __init__ p w = (Raise e, {| heap := heap w; files := files w; trace := attempted |})
  | Ok df =>
      match model_validate_json (to_json df) with
      | Raise e =>
          __init__ p w
          = (Raise e, {| heap := heap w; files := files w; trace := attempted |})
      | Ok document =>
          writable (InputParams.output_filepath_geojson p) = false ->
          exists w',
            __init__ p w = (Raise OSError, w') /\
            files w' = files w /\
            trace w' = attempted ++ [IoWrite (InputParams.output_filepath_geojson p)]
      end
  end.
Proof.
  intros attempted. unfold __init__.
  erewrite bind_run; [|reflexivity].
  destruct (read_file (InputParams.shapefile_filepath p)) as [df|e].
  - erewrite bind_run; [|reflexivity].
    destruct (model_validate_json (to_json df)) as [document|e].
    + intros Hopen. erewrite bind_run; [|reflexivity].
      destruct (new_model_spec document
                  {| heap := heap w; files := files w; trace := attempted |})
        as (data & w2 & Hnew & Hg2 & Hread2).
      rewrite (bind_run _ _ _ _ _ Hnew).
      destruct (extract_coordinates_spec w2 data document Hread2)
        as (w3 & Hext & Hg3 & _).
      rewrite (bind_run _ _ _ _ _ Hext).
      rewrite (bind_raise _ _ _ _ _ (open_w_refused _ _ Hopen)).
      eexists. split; [reflexivity|]. cbn [files trace].
      destruct Hg2 as (_ & Hf2 & Ht2). destruct Hg3 as (_ & Hf3 & Ht3).
      split; [by rewrite Hf3, Hf2|by rewrite Ht3, Ht2].
    + by apply bind_raise.
  - by apply bind_raise.
Qed.

(** From the opening of the raw file on. *)
Lemma init_run (p : InputParams.t) (w : world) (df : GeoDataFrame)
    (document : GeoJsonModel) :
  read_file (InputParams.shapefile_filepath p) = Ok df ->
  model_validate_json (to_json df) = Ok document ->
  writable (InputParams.output_filepath_geojson p) = true ->
  let raw := InputParams.output_filepath_geojson p in
  let seg := InputParams.output_filepath_geojson_segmentized p in
  let files1 := <[raw := [model_dump_json document]]> (files w) in
  let trace1 := trace w ++ [IoRead (InputParams.shapefile_filepath p); IoWrite raw] in
  match segmentize_document document with
  | Raise e =>
      exists w', __init__ p w = (Raise e, w') /\ files w' = files1 /\ trace w' = trace1
  | Ok document' =>
      if writable seg then
        match _coordinates_to_h3_hexagons set_iteration (flat_coordinates document')
                (InputParams.h3_resolution p) with
        | Ok hexagons =>
            exists self w',
              __init__ p w = (Ok self, w') /\
              _input self = p /\ _shapefile_data self = df /\
              _h3_hexagons self = hexagons /\
              read_model (heap w') (_geojson_data self) = Some document' /\
              read_coordinates (heap w') (_coordinates self)
                = Some (flat_coordinates document) /\
              read_coordinates (heap w') (_coordinates_segmentized self)
                = Some (flat_coordinates document') /\
              files w' = <[seg := [model_dump_json document']]> files1 /\
              trace w' = trace1 ++ [IoWrite seg]
        | Raise e =>
            exists w',
              __init__ p w = (Raise e, w') /\
              files w' = <[seg := [model_dump_json document']]> files1 /\
              trace w' = trace1 ++ [IoWrite seg]
        end
      else
        exists w',
          __init__ p w = (Raise OSError, w') /\
          files w' = files1 /\ trace w' = trace1 ++ [IoWrite seg]
  end.
Proof.
  intros Hdf Hdoc Hraw raw seg files1 trace1. unfold __init__.
  erewrite bind_run; [|reflexivity].
  erewrite bind_run; [|unfold lift; rewrite Hdf; reflexivity].
  erewrite bind_run; [|unfold lift; rewrite Hdoc; reflexivity].
  destruct (new_model_spec document
              {| heap := heap w; files := files w;
                 trace := trace w ++ [IoRead (InputParams.shapefile_filepath p)] |})
    as (data & w2 & Hnew & Hg2 & Hread2).
  pose proof (new_model_separate _ _ _ _ Hnew) as Hsep2.
  rewrite (bind_run _ _ _ _ _ Hnew).
  destruct (extract_coordinates_spec w2 data document Hread2) as (w3 & Hext & Hg3 & Hcs3).
  rewrite (bind_run _ _ _ _ _ Hext).
  pose proof (grows_heap_sub _ _ Hg3) as Hsub3.
  assert (read_model (heap w3) data = Some document) as Hread3
    by (by apply (read_model_sub (heap w2))).
  rewrite (write_model_run _ _ _ _ _ Hraw Hread3).
  assert (files w3 = files w) as Hf3.
  { destruct Hg2 as (_ & Hf2 & _). destruct Hg3 as (_ & Hf3 & _). by rewrite Hf3, Hf2. }
  assert (trace w3 = trace w ++ [IoRead (InputParams.shapefile_filepath p)]) as Ht3.
  { destruct Hg2 as (_ & _ & Ht2). destruct Hg3 as (_ & _ & Ht3). by rewrite Ht3, Ht2. }
  set (w5 := {| heap := heap w3;
                files := <[raw := [model_dump_json document]]> (files w3);
                trace := trace w3 ++ [IoWrite raw] |}).
  assert (files w5 = files1) as Hf5 by (cbn; by rewrite Hf3).
  assert (trace w5 = trace1) as Ht5.
  { cbn. rewrite Ht3, <- app_assoc. reflexivity. }
  pose proof (segmentize_geojson_data_run w5 data document Hread3
                (separate_geometries_sub _ _ _ Hsub3 Hsep2)) as Hseg.
  destruct (segmentize_document document) as [document'|e].
  - destruct Hseg as (w6 & Hseg & (Hng6 & _ & Hf6 & Ht6) & Hout6 & Hin6).
    rewrite (bind_run _ _ _ _ _ Hseg).
    destruct (extract_coordinates_spec w6 _ document' Hout6) as (w7 & Hext' & Hg7 & Hcs7).
    rewrite (bind_run _ _ _ _ _ Hext').
    pose proof (grows_heap_sub _ _ Hg7) as Hsub7.
    destruct Hg7 as (_ & Hf7 & Ht7).
    destruct (writable seg) eqn:Hseg_open.
    + assert (read_model (heap w7) (length (heap w5)) = Some document') as Hout7
        by (by apply (read_model_sub (heap w6))).
      rewrite (write_model_run _ _ _ _ _ Hseg_open Hout7).
      erewrite bind_run; [|by apply load_coordinates_run].
      destruct (_coordinates_to_h3_hexagons set_iteration (flat_coordinates document')
                  (InputParams.h3_resolution p)) as [hexagons|e].
      * erewrite bind_run; [|reflexivity].
        eexists _, _. split; [reflexivity|].
        cbn [_input _shapefile_data _h3_hexagons _geojson_data _coordinates
             _coordinates_segmentized heap files trace].
        split; [done|]. split; [done|]. split; [done|].
        split; [by apply (read_model_sub (heap w6))|]. split; [|split; [done|]].
        -- apply (read_coordinates_sub_ng (heap w3)); [|exact Hcs3].
           apply (heap_sub_ng_trans _ (heap w6)); [exact Hng6|].
           by apply heap_sub_weaken.
        -- split; [by rewrite Hf7, Hf6, Hf5|by rewrite Ht7, Ht6, Ht5].
      * eexists. split; [by apply bind_raise|]. cbn [files trace].
        split; [by rewrite Hf7, Hf6, Hf5|by rewrite Ht7, Ht6, Ht5].
    + rewrite (bind_raise _ _ _ _ _ (open_w_refused _ _ Hseg_open)).
      eexists. split; [reflexivity|]. cbn [files trace].
      split; [by rewrite Hf7, Hf6, Hf5|by rewrite Ht7, Ht6, Ht5].
  - destruct Hseg as (w6 & Hseg & (_ & _ & Hf6 & Ht6)).
    exists w6. split; [by apply bind_raise|].
    split; [by rewrite Hf6, Hf5|by rewrite Ht6, Ht5].
Qed.

End ConstructorRuns.

Section ConstructorProperties.
Context `{Libraries}.
Import ShapefileToH3Converter.

Lemma init_Ok_inv (p : InputParams.t) (w w' : world) (self : t) :
  __init__ p w = (Ok self, w') ->
  exists document document',
    read_file (InputParams.shapefile_filepath p) = Ok (_shapefile_data self) /\
    model_validate_json (to_json (_shapefile_data self)) = Ok document /\
    writable (InputParams.output_filepath_geojson p) = true /\
    segmentize_document document = Ok document' /\
    writable (InputParams.output_filepath_geojson_segmentized p) = true /\
    _coordinates_to_h3_hexagons set_iteration (flat_coordinates document')
      (InputParams.h3_resolution p) = Ok (_h3_hexagons self) /\
    _input self = p /\
    read_model (heap w') (_geojson_data self) = Some document' /\
    read_coordinates (heap w') (_coordinates self) = Some (flat_coordinates document) /\
    read_coordinates (heap w') (_coordinates_segmentized self)
      = Some (flat_coordinates document') /\
    files w'
      = <[InputParams.output_filepath_geojson_segmentized p :=
            [model_dump_json document']]>
          (<[InputParams.output_filepath_geojson p := [model_dump_json document]]>
             (files w)) /\
    trace w'
      = trace w ++ [IoRead (InputParams.shapefile_filepath p);
                    IoWrite (InputParams.output_filepath_geojson p);
                    IoWrite (InputParams.output_filepath_geojson_segmentized p)].
Proof.
  intros Hrun. pose proof (init_early_failure p w) as Hearly. cbv zeta in Hearly.
  destruct (read_file (InputParams.shapefile_filepath p)) as [df|e] eqn:Hdf;
    [|rewrite Hrun in Hearly; discriminate].
  destruct (model_validate_json (to_json df)) as [document|e] eqn:Hdoc;
    [|rewrite Hrun in Hearly; discriminate].
  destruct (writable (InputParams.output_filepath_geojson p)) eqn:Hraw.
  2:{ destruct (Hearly eq_refl) as (w0 & Hrun0 & _). rewrite Hrun in Hrun0. discriminate. }
  clear Hearly. pose proof (init_run p w df document Hdf Hdoc Hraw) as Hlate.
  cbv zeta in Hlate.
  destruct (segmentize_document document) as [document'|e] eqn:Hsegmentized.
  2:{ destruct Hlate as (w0 & Hrun0 & _). rewrite Hrun in Hrun0. discriminate. }
  destruct (writable (InputParams.output_filepath_geojson_segmentized p)) eqn:Hseg.
  2:{ destruct Hlate as (w0 & Hrun0 & _). rewrite Hrun in Hrun0. discriminate. }
  destruct (_coordinates_to_h3_hexagons set_iteration (flat_coordinates document')
              (InputParams.h3_resolution p)) as [hexagons|e] eqn:Hmap.
  2:{ destruct Hlate as (w0 & Hrun0 & _). rewrite Hrun in Hrun0. discriminate. }
  destruct Hlate as (self0 & w0 & Hrun0 & Hin & Hsd & Hhex & Hmodel & Hcs & Hcs' & Hf & Ht).
  rewrite Hrun in Hrun0. inversion Hrun0; subst self0 w0. clear Hrun0.
  exists document, document'. rewrite Hsd, Hhex.
  rewrite <- app_assoc in Ht. repeat split; done.
Qed.

(** The constructor completes exactly when the shapefile is read, its JSON
    validates, both GeoJSON paths open, every feature segmentizes and h3
    answers for every segmentized coordinate. *)
Theorem constructor_completes_exactly_when (p : InputParams.t) (w : world) :
  (exists self w', __init__ p w = (Ok self, w')) <->
  (exists df document document' hexagons,
     read_file (InputParams.shapefile_filepath p) = Ok df /\
     model_validate_json (to_json df) = Ok document /\
     writable (InputParams.output_filepath_geojson p) = true /\
     segmentize_document document = Ok document' /\
     writable (InputParams.output_filepath_geojson_segmentized p) = true /\
     _coordinates_to_h3_hexagons set_iteration (flat_coordinates document')
       (InputParams.h3_resolution p) = Ok hexagons).
Proof.
  split.
  - intros (self & w' & Hrun).
    apply init_Ok_inv in Hrun
      as (document & document' & Hdf & Hdoc & Hraw & Hseg & Hopen & Hmap & _).
    by exists (_shapefile_data self), document, document', (_h3_hexagons self).
  - intros (df & document & document' & hexagons & Hdf & Hdoc & Hraw & Hseg & Hopen & Hmap).
    pose proof (init_run p w df document Hdf Hdoc Hraw) as Hlate. cbv zeta in Hlate.
    rewrite Hseg, Hopen, Hmap in Hlate. destruct Hlate as (self & w' & Hrun & _). eauto.
Qed.

(** What a completed constructor leaves: the raw file holds the dump of
    the ingested document and the segmentized file the dump of its
    segmentization (the later write wins when the paths are one), no other
    file is touched, and the I/O was the read and the two writes in this
    order; [coordinates_segmentized] lists the segmentized coordinates, and
    the model kept in [_geojson_data] denotes the segmentized document, no
    longer the ingested one. *)
Theorem constructor_outputs (p : InputParams.t) (w w' : world) (self : t) :
  __init__ p w = (Ok self, w') ->
  exists document document',
    model_validate_json (to_json (_shapefile_data self)) = Ok document /\
    segmentize_document document = Ok document' /\
    _input self = p /\
    read_model (heap w') (_geojson_data self) = Some document' /\
    read_coordinates (heap w') (_coordinates_segmentized self)
      = Some (flat_coordinates document') /\
    files w'
      = <[InputParams.output_filepath_geojson_segmentized p :=
            [model_dump_json document']]>
          (<[InputParams.output_filepath_geojson p := [model_dump_json document]]>
             (files w)) /\
    trace w'
      = trace w ++ [IoRead (InputParams.shapefile_filepath p);
                    IoWrite (InputParams.output_filepath_geojson p);
                    IoWrite (InputParams.output_filepath_geojson_segmentized p)].
Proof.
  intros Hrun. apply init_Ok_inv in Hrun
    as (document & document' & _ & Hdoc & _ & Hseg & _ & _ & Hin & Hmodel & _ & Hcs
        & Hfiles & Htrace).
  by exists document, document'.
Qed.

(** The cells of a completed constructor: [h3_hexagons] repeats no cell and
    holds, for every coordinate of [coordinates_segmentized], the cell h3
    resolves for it at the configured resolution. *)
Theorem constructor_cells_cover_segmentized_coordinates (p : InputParams.t)
    (w w' : world) (self : t) :
  __init__ p w = (Ok self, w') ->
  NoDup (_h3_hexagons self) /\
  exists cs,
    read_coordinates (heap w') (_coordinates_segmentized self) = Some cs /\
    forall c, c ∈ cs ->
      exists lat lng cell,
        Coordinate.root c !! 1%nat = Some lat /\
        Coordinate.root c !! 0%nat = Some lng /\
        latlng_to_cell lat lng (InputParams.h3_resolution p) = Ok cell /\
        cell ∈ _h3_hexagons self.
Proof.
  intros Hrun. apply init_Ok_inv in Hrun
    as (document & document' & _ & _ & _ & _ & _ & Hmap & _ & _ & _ & Hcs & _).
  apply mapper_Ok in Hmap as (hexagons & Hloop & Hout). rewrite Hout. split.
  - apply enumerate_NoDup.
  - exists (flat_coordinates document'). split; [exact Hcs|]. intros c Hc.
    destruct (append_cells_covers _ _ _ _ Hloop c Hc)
      as (lat & lng & cell & Hlat & Hlng & Hcell & Hin).
    exists lat, lng, cell. repeat split; try assumption.
    by apply enumerate_elem_of, elem_of_list_to_set.
Qed.

(** When the shapefile cannot be read, or its JSON does not validate, the
    constructor raises that exception and has written nothing: files and
    heap are as they were and the read is the one I/O event. *)
Theorem constructor_writes_nothing_when_ingestion_fails (p : InputParams.t)
    (w : world) (e : exn) :
  read_file (InputParams.shapefile_filepath p) = Raise e \/
  (exists df, read_file (InputParams.shapefile_filepath p) = Ok df /\
              model_validate_json (to_json df) = Raise e) ->
  __init__ p w
  = (Raise e,
     {| heap := heap w; files := files w;
        trace := trace w ++ [IoRead (InputParams.shapefile_filepath p)] |}).
Proof.
  intros Hfail. pose proof (init_early_failure p w) as Hearly. cbv zeta in Hearly.
  destruct Hfail as [Hdf|(df & Hdf & Hdoc)].
  - by rewrite Hdf in Hearly.
  - by rewrite Hdf, Hdoc in Hearly.
Qed.




End ConstructorProperties.

(** ** The entry point *)

Section EntryPoint.
Context `{Libraries} `{!Builtins}.
Import ShapefileToH3Converter.

(** [main.py], end to end.  When the shapefile is read, its JSON validates
    to a document whose coordinates have two components or more, every
    feature segmentizes, h3 answers and the five output paths open, the run
    completes with the six I/O events in order and leaves the raw and the
    segmentized GeoJSON, the two coordinate tables of the ingested and of the
    segmentized document, and the table of the cells; no other file is
    touched. *)
Theorem main_writes_five_files (w : world) (df : GeoDataFrame)
    (document document' : GeoJsonModel) (hexagons : list string) :
  read_file "data_in/National Highways.shp" = Ok df ->
  model_validate_json (to_json df) = Ok document ->
  Forall (fun c => (2 <= length (Coordinate.root c))%nat) (flat_coordinates document) ->
  segmentize_document document = Ok document' ->
  _coordinates_to_h3_hexagons set_iteration (flat_coordinates document') 8
    = Ok hexagons ->
  Forall (fun path => writable path = true)
    ["data_out/highways.geojson"; "data_out/highways_segmentized.geojson";
     "data_out/coordinates.csv"; "data_out/coordinates_segmentized.csv";
     "data_out/h3_hexagons.csv"] ->
  exists w',
    main w = (Ok tt, w') /\
    trace w'
      = trace w ++ [IoRead "data_in/National Highways.shp";
                    IoWrite "data_out/highways.geojson";
                    IoWrite "data_out/highways_segmentized.geojson";
                    IoWrite "data_out/coordinates.csv";
                    IoWrite "data_out/coordinates_segmentized.csv";
                    IoWrite "data_out/h3_hexagons.csv"] /\
    files w' !! "data_out/highways.geojson" = Some [model_dump_json document] /\
    files w' !! "data_out/highways_segmentized.geojson"
      = Some [model_dump_json document'] /\
    files w' !! "data_out/coordinates.csv"
      = Some (coordinates_csv (flat_coordinates document) 4) /\
    files w' !! "data_out/coordinates_segmentized.csv"
      = Some (coordinates_csv (flat_coordinates document') 4) /\
    files w' !! "data_out/h3_hexagons.csv" = Some (hexagons_csv hexagons) /\
    forall other,
      other ∉ ["data_out/highways.geojson"; "data_out/highways_segmentized.geojson";
               "data_out/coordinates.csv"; "data_out/coordinates_segmentized.csv";
               "data_out/h3_hexagons.csv"] ->
      files w' !! other = files w !! other.
Proof.
  intros Hdf Hdoc Hpairs Hseg Hmap Hopen.
  apply Forall_cons in Hopen as [Hraw Hopen]. apply Forall_cons in Hopen as [Hsegf Hopen].
  apply Forall_cons in Hopen as [Hcsv Hopen]. apply Forall_cons in Hopen as [Hcsv' Hopen].
  apply Forall_cons in Hopen as [Hhex _].
  unfold main. erewrite bind_run; [|reflexivity].
  match goal with |- context [__init__ ?params] => set (p := params) end.
  pose proof (init_run p w df document Hdf Hdoc Hraw) as Hinit. cbv zeta in Hinit.
  rewrite Hseg in Hinit. subst p. cbn [InputParams.output_filepath_geojson_segmentized
    InputParams.output_filepath_geojson InputParams.h3_resolution
    InputParams.shapefile_filepath] in Hinit.
  rewrite Hsegf, Hmap in Hinit.
  destruct Hinit as (self & w1 & Hinit & Hin & _ & Hhexagons & _ & Hcs & Hcs' & Hf1 & Ht1).
  rewrite (bind_run _ _ _ _ _ Hinit).
  erewrite bind_run;
    [|by apply (write_coordinates_to_file_run _ _ _ _ _ Hcs Hpairs Hcsv)].
  erewrite bind_run.
  2:{ apply (write_coordinates_to_file_run _ _ _ (flat_coordinates document'));
        [exact Hcs'| |exact Hcsv'].
      eapply Forall_impl; [by eapply segmentize_document_pairs|].
      intros c Hc. cbn in Hc. lia. }
  unfold convert. rewrite Hin. cbn [InputParams.output_filepath_h3_hexagons].
  rewrite (write_h3_hexagons_to_file_run _ _ _ Hhex).
  eexists. split; [reflexivity|]. cbn [heap files trace].
  rewrite Hhexagons, Hf1, Ht1. split; [by rewrite <- !app_assoc|].
  repeat split.
  - repeat (rewrite lookup_insert_ne by done). by rewrite lookup_insert_eq.
  - repeat (rewrite lookup_insert_ne by done). by rewrite lookup_insert_eq.
  - repeat (rewrite lookup_insert_ne by done). by rewrite lookup_insert_eq.
  - repeat (rewrite lookup_insert_ne by done). by rewrite lookup_insert_eq.
  - by rewrite lookup_insert_eq.
  - intros other Hother.
    repeat (rewrite lookup_insert_ne
              by (intros Heq; subst other; apply Hother; set_solver)).
    reflexivity.
Qed.

End EntryPoint.

(** ** The theorems above on concrete inputs *)

Lemma write_h3_hexagons_to_file_writes_numbered_rows_witness :
  exists w' : @world Sample.L,
    @write_h3_hexagons_to_file Sample.L Sample.B (Sample.converter ["NE"; "SW"])
      "table.csv" Sample.table = (Ok tt, w') /\
    heap w' = heap Sample.table /\
    trace w' = trace Sample.table ++ [IoWrite "table.csv"] /\
    files w' !! "table.csv"
      = Some (@text Sample.L Sample.B h3_hexagons_header
                :: imap (fun i h => @text Sample.L Sample.B
                                      (pretty i +:+ "," +:+ h +:+ newline))
                     (@h3_hexagons_property Sample.L (Sample.converter ["NE"; "SW"]))) /\
    forall other, other <> "table.csv" ->
      files w' !! other = files Sample.table !! other.
Proof.
  apply (@write_h3_hexagons_to_file_writes_numbered_rows Sample.L Sample.B
           (Sample.converter ["NE"; "SW"]) "table.csv" Sample.table).
  reflexivity.
Defined.


Lemma write_coordinates_to_file_writes_latitude_first_witness :
  exists w' : @world Sample.L,
    @write_coordinates_to_file Sample.L Sample.B 2%nat "table.csv" 4 Sample.table
      = (Ok tt, w') /\
    heap w' = heap Sample.table /\
    trace w' = trace Sample.table ++ [IoWrite "table.csv"] /\
    files w' !! "table.csv"
      = Some (@text Sample.L Sample.B coordinates_header
                :: imap (fun i '(lng, lat) =>
                     @text Sample.L Sample.B
                       (pretty i +:+ ","
                          +:+ @format_float Sample.L Sample.B
                                (@round Sample.L Sample.B lat 4)
                          +:+ ","
                          +:+ @format_float Sample.L Sample.B
                                (@round Sample.L Sample.B lng 4)
                          +:+ newline))
                     [(151.2, -33.9); (149.1, -35.3)]%float) /\
    forall other, other <> "table.csv" ->
      files w' !! other = files Sample.table !! other.
Proof.
  apply (@write_coordinates_to_file_writes_latitude_first Sample.L Sample.B
           2%nat "table.csv" 4 [(151.2, -33.9); (149.1, -35.3)]%float Sample.table).
  - reflexivity.
  - reflexivity.
Defined.

Lemma writers_refuse_unwritable_path_witness :
  let refused : @world Sample.L :=
    {| heap := heap Sample.table; files := files Sample.table;
       trace := trace Sample.table ++ [IoWrite "/readonly.csv"] |} in
  @write_h3_hexagons_to_file Sample.L Sample.B (Sample.converter ["NE"])
    "/readonly.csv" Sample.table = (Raise OSError, refused) /\
  @write_coordinates_to_file Sample.L Sample.B 2%nat "/readonly.csv" 4 Sample.table
    = (Raise OSError, refused).
Proof.
  apply (@writers_refuse_unwritable_path Sample.L Sample.B (Sample.converter ["NE"])
           2%nat 4 "/readonly.csv" Sample.table).
  reflexivity.
Defined.

Lemma segmentize_geojson_data_computes_segmentize_document_witness :
  exists r (w' : @world Sample.L),
    @ShapefileToH3Converter.segmentize_geojson_data Sample.L 6%nat (snd Sample.ingested)
      = (r, w') /\
    files w' = files (snd Sample.ingested) /\
    trace w' = trace (snd Sample.ingested) /\
    match @segmentize_document Sample.L Reference.short_road with
    | Ok document' =>
        exists out, r = Ok out /\ heap (snd Sample.ingested) !! out = None /\
                    read_model (heap w') out = Some document' /\
                    read_model (heap w') 6%nat = Some document'
    | Raise e => r = Raise e
    end.
Proof.
  apply (@segmentize_geojson_data_computes_segmentize_document Sample.L
           (snd Sample.ingested) 6%nat Reference.short_road).
  - vm_compute. reflexivity.
  - apply (@new_model_separate Sample.L Reference.short_road
             (Sample.empty_world Sample.L)).
    vm_compute. reflexivity.
Defined.

Lemma segmentize_geojson_data_changes_coordinates_only_witness :
  exists document',
    read_model
      (heap (snd (@ShapefileToH3Converter.segmentize_geojson_data Sample.L 6%nat
                    (snd Sample.ingested)))) 7%nat = Some document' /\
    type document' = type Reference.short_road /\
    crs document' = crs Reference.short_road /\
    Forall2 (fun f f' =>
               id f' = id f /\ feature_type f' = feature_type f /\
               properties f' = properties f /\
               geometry_type (geometry f') = geometry_type (geometry f) /\
               Forall (fun c => length (Coordinate.root c) = 2%nat)
                 (coordinates (geometry f')))
      (features Reference.short_road) (features document').
Proof.
  apply (@segmentize_geojson_data_changes_coordinates_only Sample.L
           (snd Sample.ingested) _ 6%nat 7%nat Reference.short_road).
  - vm_compute. reflexivity.
  - apply (@new_model_separate Sample.L Reference.short_road
             (Sample.empty_world Sample.L)).
    vm_compute. reflexivity.
  - vm_compute. reflexivity.
Defined.

Lemma constructor_outputs_witness :
  exists self (w' : @world Sample.L),
    @ShapefileToH3Converter.__init__ Sample.L (Reference.params "raw.json" "seg.json")
      (Sample.empty_world Sample.L) = (Ok self, w') /\
    exists document document',
      @model_validate_json Sample.L
        (@to_json Sample.L (ShapefileToH3Converter._shapefile_data self)) = Ok document /\
      @segmentize_document Sample.L document = Ok document' /\
      ShapefileToH3Converter._input self = Reference.params "raw.json" "seg.json" /\
      read_model (heap w') (ShapefileToH3Converter._geojson_data self)
        = Some document' /\
      read_coordinates (heap w') (ShapefileToH3Converter._coordinates_segmentized self)
        = Some (flat_coordinates document') /\
      files w'
        = <["seg.json" := [@model_dump_json Sample.L document']]>
            (<["raw.json" := [@model_dump_json Sample.L document]]>
               (files (Sample.empty_world Sample.L))) /\
      trace w'
        = trace (Sample.empty_world Sample.L)
            ++ [IoRead "in.shp"; IoWrite "raw.json"; IoWrite "seg.json"].
Proof.
  destruct (@ShapefileToH3Converter.__init__ Sample.L
              (Reference.params "raw.json" "seg.json") (Sample.empty_world Sample.L))
    as [[self|e] w'] eqn:Hrun.
  - exists self, w'. split; [reflexivity|].
    exact (@constructor_outputs Sample.L (Reference.params "raw.json" "seg.json")
             _ _ _ Hrun).
  - exfalso. vm_compute in Hrun. discriminate Hrun.
Defined.

Lemma constructor_cells_cover_segmentized_coordinates_witness :
  exists self (w' : @world Sample.L),
    @ShapefileToH3Converter.__init__ Sample.L (Reference.params "raw.json" "seg.json")
      (Sample.empty_world Sample.L) = (Ok self, w') /\
    NoDup (ShapefileToH3Converter._h3_hexagons self) /\
    exists cs,
      read_coordinates (heap w') (ShapefileToH3Converter._coordinates_segmentized self)
        = Some cs /\
      forall c, c ∈ cs ->
        exists lat lng cell,
          Coordinate.root c !! 1%nat = Some lat /\
          Coordinate.root c !! 0%nat = Some lng /\
          @latlng_to_cell Sample.L lat lng
            (InputParams.h3_resolution (Reference.params "raw.json" "seg.json"))
            = Ok cell /\
          cell ∈ ShapefileToH3Converter._h3_hexagons self.
Proof.
  destruct (@ShapefileToH3Converter.__init__ Sample.L
              (Reference.params "raw.json" "seg.json") (Sample.empty_world Sample.L))
    as [[self|e] w'] eqn:Hrun.
  - exists self, w'. split; [reflexivity|].
    exact (@constructor_cells_cover_segmentized_coordinates Sample.L
             (Reference.params "raw.json" "seg.json") _ _ _ Hrun).
  - exfalso. vm_compute in Hrun. discriminate Hrun.
Defined.

Lemma constructor_writes_nothing_when_ingestion_fails_witness :
  let L := Reference.libraries (fun _ => Raise OSError) in
  @ShapefileToH3Converter.__init__ L (Reference.params "raw.json" "seg.json")
    (Reference.empty_world L)
  = (Raise OSError,
     {| heap := heap (Reference.empty_world L);
        files := files (Reference.empty_world L);
        trace := trace (Reference.empty_world L) ++ [IoRead "in.shp"] |}).
Proof.
  intros L.
  apply (@constructor_writes_nothing_when_ingestion_fails L
           (Reference.params "raw.json" "seg.json") (Reference.empty_world L) OSError).
  left. reflexivity.
Defined.


Lemma main_writes_five_files_witness :
  exists w' : @world Sample.L,
    @main Sample.L Sample.B (Sample.empty_world Sample.L) = (Ok tt, w') /\
    trace w'
      = trace (Sample.empty_world Sample.L)
          ++ [IoRead "data_in/National Highways.shp";
              IoWrite "data_out/highways.geojson";
              IoWrite "data_out/highways_segmentized.geojson";
              IoWrite "data_out/coordinates.csv";
              IoWrite "data_out/coordinates_segmentized.csv";
              IoWrite "data_out/h3_hexagons.csv"] /\
    files w' !! "data_out/highways.geojson"
      = Some [@model_dump_json Sample.L Reference.short_road] /\
    files w' !! "data_out/highways_segmentized.geojson"
      = Some [@model_dump_json Sample.L Reference.short_road_segmentized] /\
    files w' !! "data_out/coordinates.csv"
      = Some (@coordinates_csv Sample.L Sample.B
                (flat_coordinates Reference.short_road) 4) /\
    files w' !! "data_out/coordinates_segmentized.csv"
      = Some (@coordinates_csv Sample.L Sample.B
                (flat_coordinates Reference.short_road_segmentized) 4) /\
    files w' !! "data_out/h3_hexagons.csv"
      = Some (@hexagons_csv Sample.L Sample.B ["SW"; "SE"; "NW"; "NE"]) /\
    forall other,
      other ∉ ["data_out/highways.geojson"; "data_out/highways_segmentized.geojson";
               "data_out/coordinates.csv"; "data_out/coordinates_segmentized.csv";
               "data_out/h3_hexagons.csv"] ->
      files w' !! other = files (Sample.empty_world Sample.L) !! other.
Proof.
  apply (@main_writes_five_files Sample.L Sample.B (Sample.empty_world Sample.L)
           Reference.short_road Reference.short_road Reference.short_road_segmentized
           ["SW"; "SE"; "NW"; "NE"]).
  - reflexivity.
  - reflexivity.
  - repeat constructor.
  - vm_compute. reflexivity.
  - vm_compute. reflexivity.
  - repeat constructor.
Defined.

(** ** More on the cell mapper and on the schema *)

Section MapperCharacterisation.
Context `{Libraries}.
Import ShapefileToH3Converter.

Lemma append_cells_members (coordinates : list Coordinate.t) (resolution : Z) :
  forall acc out, append_cells coordinates resolution acc = Ok out ->
  forall x, x ∈ out <->
    x ∈ acc \/
    exists c lat lng cell ns,
      c ∈ coordinates /\
      Coordinate.root c !! 1%nat = Some lat /\
      Coordinate.root c !! 0%nat = Some lng /\
      latlng_to_cell lat lng resolution = Ok cell /\
      grid_ring cell 1 = Ok ns /\
      (x = cell \/ x ∈ ns).
Proof.
  induction coordinates as [|c0 rest IH]; intros acc out Hrun x.
  - cbn in Hrun. inversion Hrun; subst. split; [by left|].
    intros [Hx|(c & _ & _ & _ & _ & Hc & _)]; [done|]. by apply elem_of_nil in Hc.
  - apply append_cells_cons in Hrun
      as (lat & lng & cell & ns & Hlat & Hlng & Hcell & Hns & Hrest).
    rewrite (IH _ _ Hrest x). split.
    + intros [Hx|(c & lat' & lng' & cell' & ns' & Hc & Hrest')].
      * apply elem_of_app in Hx as [Hx|Hx]; [by left|]. right.
        exists c0, lat, lng, cell, ns. split; [by apply elem_of_cons; left|].
        repeat split; try assumption.
        apply elem_of_cons in Hx as [Hx|Hx]; [by left|by right].
      * right. exists c, lat', lng', cell', ns'. split; [by apply elem_of_cons; right|].
        exact Hrest'.
    + intros [Hx|(c & lat' & lng' & cell' & ns' & Hc & Hlat' & Hlng' & Hcell' & Hns' & Hx)].
      * left. apply elem_of_app. by left.
      * apply elem_of_cons in Hc as [->|Hc].
        -- left. apply elem_of_app. right.
           assert (lat' = lat) as -> by congruence.
           assert (lng' = lng) as -> by congruence.
           assert (cell' = cell) as -> by congruence.
           assert (ns' = ns) as -> by congruence.
           apply elem_of_cons. destruct Hx as [Hx|Hx]; [by left|by right].
        -- right. exists c, lat', lng', cell', ns'. done.
Qed.

(** The mapper returns exactly the cells of the coordinates and their
    rings: a cell is in the list iff it is the cell h3 resolves for some
    input coordinate, or a member of the ring of distance 1 of such a cell.
    No coordinates give no cells. *)
Theorem mapper_output_is_exactly_cells_and_rings (order : SetIteration)
    (coordinates : list Coordinate.t) (resolution : Z) (out : list string) :
  _coordinates_to_h3_hexagons order coordinates resolution = Ok out ->
  (coordinates = [] -> out = []) /\
  forall x, x ∈ out <->
    exists c lat lng cell ns,
      c ∈ coordinates /\
      Coordinate.root c !! 1%nat = Some lat /\
      Coordinate.root c !! 0%nat = Some lng /\
      latlng_to_cell lat lng resolution = Ok cell /\
      grid_ring cell 1 = Ok ns /\
      (x = cell \/ x ∈ ns).
Proof.
  intros Hrun. apply mapper_Ok in Hrun as (hexagons & Hloop & ->).
  assert (forall x, x ∈ enumerate order (list_to_set hexagons) <->
            exists c lat lng cell ns,
              c ∈ coordinates /\
              Coordinate.root c !! 1%nat = Some lat /\
              Coordinate.root c !! 0%nat = Some lng /\
              latlng_to_cell lat lng resolution = Ok cell /\
              grid_ring cell 1 = Ok ns /\
              (x = cell \/ x ∈ ns)) as Hmembers.
  { intros x. rewrite enumerate_elem_of, elem_of_list_to_set.
    rewrite (append_cells_members _ _ _ _ Hloop x). split; [|by right].
    intros [Hx|Hx]; [by apply elem_of_nil in Hx|exact Hx]. }
  split; [|exact Hmembers].
  intros ->. destruct (enumerate order (list_to_set hexagons)) as [|x rest];
    [reflexivity|].
  assert (x ∈ x :: rest) as Hx by (by apply elem_of_cons; left).
  apply Hmembers in Hx as (c & _ & _ & _ & _ & Hc & _).
  by apply elem_of_nil in Hc.
Qed.

(** The mapper returns exactly when every coordinate has two components or
    more and h3 resolves its cell and the ring of the cell; otherwise it
    raises. *)
Theorem mapper_returns_exactly_when_h3_answers (order : SetIteration)
    (coordinates : list Coordinate.t) (resolution : Z) :
  (exists out, _coordinates_to_h3_hexagons order coordinates resolution = Ok out) <->
  (forall c, c ∈ coordinates ->
     exists lat lng cell ns,
       Coordinate.root c !! 1%nat = Some lat /\
       Coordinate.root c !! 0%nat = Some lng /\
       latlng_to_cell lat lng resolution = Ok cell /\
       grid_ring cell 1 = Ok ns).
Proof.
  split; [|apply mapper_total].
  intros [out Hrun]. apply mapper_Ok in Hrun as (hexagons & Hloop & _).
  revert Hloop. generalize (@nil string).
  induction coordinates as [|c0 rest IH]; intros acc Hloop c Hc.
  - by apply elem_of_nil in Hc.
  - apply append_cells_cons in Hloop
      as (lat & lng & cell & ns & Hlat & Hlng & Hcell & Hns & Hrest).
    apply elem_of_cons in Hc as [->|Hc].
    + by exists lat, lng, cell, ns.
    + by apply (IH _ Hrest).
Qed.

End MapperCharacterisation.

Lemma mapper_output_is_exactly_cells_and_rings_witness :
  ([ {| Coordinate.root := [151.2; -33.9]%float |} ] = [] ->
   ["SW"; "SE"; "NW"; "NE"] = []) /\
  forall x, x ∈ ["SW"; "SE"; "NW"; "NE"] <->
    exists c lat lng cell ns,
      c ∈ [ {| Coordinate.root := [151.2; -33.9]%float |} ] /\
      Coordinate.root c !! 1%nat = Some lat /\
      Coordinate.root c !! 0%nat = Some lng /\
      @latlng_to_cell Sample.L lat lng 8 = Ok cell /\
      @grid_ring Sample.L cell 1 = Ok ns /\
      (x = cell \/ x ∈ ns).
Proof.
  apply (@mapper_output_is_exactly_cells_and_rings Sample.L Reference.in_set_order
           [ {| Coordinate.root := [151.2; -33.9]%float |} ] 8
           ["SW"; "SE"; "NW"; "NE"]).
  reflexivity.
Defined.

(** [Geometry] accepts exactly the type [LineString] with one coordinate or
    more, each of two components, and keeps them in order. *)
Theorem Geometry_new_accepts_exactly (type : string) (points : list (list float))
    (g : Geometry) :
  Geometry_new type points = Ok g <->
  type = "LineString" /\ points <> [] /\
  Forall (fun point => length point = 2%nat) points /\
  g = {| geometry_type := FeatureGeometryType.LineString;
         coordinates := map Coordinate.Build_t points |}.
Proof.
  unfold Geometry_new, FeatureGeometryType_of_value. split.
  - destruct (String.eqb type "LineString") eqn:Htype; [|discriminate].
    apply String.eqb_eq in Htype. cbn [mbind result_bind].
    destruct (mapR Coordinate.new points) as [cs|e] eqn:Hcs; [|discriminate].
    cbn [mbind result_bind]. apply mapR_Forall2 in Hcs.
    assert (Forall (fun point => length point = 2%nat) points /\
            cs = map Coordinate.Build_t points) as [Hpairs ->].
    { clear -Hcs. induction Hcs as [|point c points cs Hc _ [IH1 IH2]]; [by split|].
      apply Coordinate_new_iff in Hc as [Hlen ->]. subst cs.
      split; [by constructor|reflexivity]. }
    destruct points as [|point points]; [discriminate|].
    unfold pydantic.validate_list, pydantic.check_length.
    cbn [Geometry_coordinates_field pydantic.Field pydantic.kwarg pydantic.min_length
         pydantic.max_length String.eqb Ascii.eqb Bool.eqb pydantic.at_least
         pydantic.at_most].
    destruct (1 <=? Z.of_nat (length (map Coordinate.Build_t (point :: points))))
      eqn:Hlen; [|discriminate].
    cbn [andb mbind result_bind]. intros Heq. inversion Heq. done.
  - intros (-> & Hne & Hpairs & ->). cbn [String.eqb Ascii.eqb Bool.eqb mbind result_bind].
    assert (mapR Coordinate.new points = Ok (map Coordinate.Build_t points)) as ->.
    { apply mapR_Forall2, Forall2_fmap_r, Forall_Forall2_diag.
      eapply Forall_impl; [exact Hpairs|]. intros point. apply Coordinate_new_Ok. }
    cbn [mbind result_bind]. destruct points as [|point points]; [done|].
    unfold pydantic.validate_list, pydantic.check_length.
    cbn [Geometry_coordinates_field pydantic.Field pydantic.kwarg pydantic.min_length
         pydantic.max_length String.eqb Ascii.eqb Bool.eqb pydantic.at_least
         pydantic.at_most].
    destruct (1 <=? Z.of_nat (length (map Coordinate.Build_t (point :: points))))
      eqn:Hlen; [reflexivity|].
    apply Z.leb_gt in Hlen. cbn [map length] in Hlen. lia.
Qed.

(** The schema and the segmentizer disagree on a line of one point: for
    every point of two components [Geometry] accepts the line, and
    segmentization of that geometry raises [GEOSException], whatever the
    libraries. *)
Theorem schema_accepts_the_line_segmentization_refuses `{Libraries} (x y : float) :
  exists g,
    Geometry_new "LineString" [[x; y]] = Ok g /\
    segmentize_geometry g = Raise GEOSException.
Proof.
  eexists. split; [reflexivity|].
  unfold segmentize_geometry. cbn [geometry_type FeatureGeometryType.eqb coordinates].
  rewrite segmentize_points_unfold. reflexivity.
Qed.
